(** * LMStudioNode (src/node.py): a shallow embedding and its properties

    The node sends one chat-completion request to a local LM Studio server,
    either through the [lmstudio] SDK binding or through the HTTP API, and
    returns a pair (response, stats).  The development follows the source
    function by function; everything outside the file (the SDK, [requests],
    PIL, [tempfile], the file system, [sys.stdout]) is an oracle of the
    record [World]. *)

From Stdlib Require Import ZArith Ascii String List Bool Lia DecimalString SpecFloat.
From stdpp Require Import base list strings gmap.

Set Warnings "-register-all,-clear-no-such-hyp".
Local Open Scope Z_scope.

(* ===================================================================== *)
(** * Part I.  Definitions                                                *)
(* ===================================================================== *)

(** ** 1. Text: [re.sub(r"<think>.*?</think>", "", text, flags=re.DOTALL)]
       and [str.strip()]

    A Python [str] is modelled by [string]; its characters are the code
    points below 256.  The scanning functions work on the list of
    characters. *)

Definition chars (s : string) : list ascii := list_ascii_of_string s.
Definition str_of (t : list ascii) : string := string_of_list_ascii t.

Definition open_tag : list ascii := chars "<think>".
Definition close_tag : list ascii := chars "</think>".

(** [starts_with p s]: the literal [p] matches at the start of [s]. *)
Fixpoint starts_with (p s : list ascii) : bool :=
  match p, s with
  | [], _ => true
  | a :: p', b :: s' => Ascii.eqb a b && starts_with p' s'
  | _ :: _, [] => false
  end.

(** [contains p s]: [p] occurs somewhere in [s]. *)
Fixpoint contains (p s : list ascii) : bool :=
  starts_with p s ||
  match s with
  | [] => false
  | _ :: s' => contains p s'
  end.

(** [find p s]: index of the first occurrence of [p] in [s]. *)
Fixpoint find (p s : list ascii) : option nat :=
  if starts_with p s then Some 0%nat
  else match s with
       | [] => None
       | _ :: s' => option_map S (find p s')
       end.

(** A pattern is borderless when none of its proper non-empty suffixes is
    one of its prefixes: two occurrences of it never overlap. *)
Definition borderless (p : list ascii) : bool :=
  forallb (fun k => negb (starts_with (drop k p) p)) (seq 1 (length p - 1)).

(** Length of the match of [<think>.*?</think>] that starts at the head of
    [s], if there is one.  With DOTALL the lazy [.*?] takes any characters,
    newlines included, up to the first [</think>] after the opening tag. *)
Definition match_at (s : list ascii) : option nat :=
  if starts_with open_tag s then
    match find close_tag (drop 7 s) with
    | Some k => Some (7 + k + 8)%nat
    | None => None
    end
  else None.

(** [re.sub] with the empty replacement: scan from the left; where the
    pattern matches, drop the match and resume right after it; elsewhere
    copy the character.  [skip] counts the characters of the current match
    that are still to be dropped. *)
Fixpoint sub_from (skip : nat) (s : list ascii) : list ascii :=
  match s with
  | [] => []
  | c :: s' =>
      match skip with
      | S k => sub_from k s'
      | O =>
          match match_at s with
          | Some (S k) => sub_from k s'
          | _ => c :: sub_from 0 s'
          end
      end
  end.

Definition re_sub_think (s : list ascii) : list ascii := sub_from 0 s.

(** [re.search] of the same pattern: is there a match anywhere in [s]? *)
Fixpoint has_span (s : list ascii) : bool :=
  match s with
  | [] => false
  | _ :: s' => bool_decide (is_Some (match_at s)) || has_span s'
  end.

(** [str.isspace] on one character (code points below 256). *)
Definition is_space (c : ascii) : bool :=
  let n := nat_of_ascii c in
  ((9 <=? n) && (n <=? 13) || (28 <=? n) && (n <=? 32)
   || (n =? 133) || (n =? 160))%nat.

Fixpoint lstrip (s : list ascii) : list ascii :=
  match s with
  | [] => []
  | c :: s' => if is_space c then lstrip s' else s
  end.

Definition rstrip (s : list ascii) : list ascii :=
  reverse (lstrip (reverse s)).

Definition strip (s : list ascii) : list ascii := rstrip (lstrip s).

(** [LMStudioNode._clean_thinking_tokens] *)
Definition _clean_thinking_tokens (text : string) : string :=
  str_of (strip (re_sub_think (chars text))).

(** The removal as the specification words it: the text is cut into
    pieces [t0 <think> b1 </think> t1 ... <think> bn </think> tn]; a piece
    before a span holds no opening tag, the body of a span holds no closing
    tag, and the last piece holds no span.  [Spans t r]: removing the spans
    of [t], tags included, leaves [r]. *)
Inductive Spans : list ascii -> list ascii -> Prop :=
| Spans_none t :
    has_span t = false -> Spans t t
| Spans_cut t0 b rest r :
    contains open_tag t0 = false ->
    contains close_tag b = false ->
    Spans rest r ->
    Spans (t0 ++ open_tag ++ b ++ close_tag ++ rest) (t0 ++ r).

(** [Trimmed r r']: [r'] is [r] without its leading and trailing
    whitespace. *)
Definition Trimmed (r r' : list ascii) : Prop :=
  exists u v,
    r = u ++ r' ++ v /\
    forallb is_space u = true /\ forallb is_space v = true /\
    (forall c, head r' = Some c -> is_space c = false) /\
    (forall c, last r' = Some c -> is_space c = false).

(** ** 2. Python values, exceptions and formatting *)

(** Classes of the exceptions the node can meet.  All of them derive from
    [Exception], so [except Exception] catches each; [KeyboardInterrupt]
    and [SystemExit], which do not, are no failures of a call and are not
    modelled.  [RequestsConnectTimeout] derives from both
    [requests.ConnectionError] and [requests.Timeout]. *)
Inductive exn_class :=
| RequestsConnectionError
| RequestsConnectTimeout
| RequestsReadTimeout
| RequestsTimeout
| RequestsHTTPError
| JSONDecodeError
| KeyError
| IndexError
| TypeError
| AttributeError
| ValueError
| OverflowError
| UnicodeEncodeError
| OSError
| RuntimeError.

(** An exception object: its class and [str(e)]. *)
Record exn := { exn_cls : exn_class; exn_str : string }.

(** [isinstance(e, requests.ConnectionError)] *)
Definition is_ConnectionError (e : exn) : bool :=
  match exn_cls e with
  | RequestsConnectionError | RequestsConnectTimeout => true
  | _ => false
  end.

(** [isinstance(e, requests.Timeout)] *)
Definition is_Timeout (e : exn) : bool :=
  match exn_cls e with
  | RequestsTimeout | RequestsReadTimeout | RequestsConnectTimeout => true
  | _ => false
  end.

(** The result of an expression that may raise. *)
Inductive outcome (A : Type) :=
| Ok (a : A)
| Raise (e : exn).
Arguments Ok {A} a.
Arguments Raise {A} e.

(** A Python value: what [json] decodes to, and what an attribute of an
    SDK object may hold.  Floats are binary64. *)
Inductive pyval :=
| PNone
| PBool (b : bool)
| PInt (z : Z)
| PFloat (f : spec_float)
| PStr (s : string)
| PList (l : list pyval)
| PDict (d : list (string * pyval)).

Definition nl : string := String (ascii_of_nat 10) EmptyString.

(** The decimal digits of an [int], with its sign: [str(n)] for the ints
    that the interpreter converts, which since CPython 3.11 are those of
    at most 4300 digits ([ValueError] beyond).  A statement about
    [_format_stats] on arbitrary counts bounds them by [10 ^ 4300]. *)
Definition dec (z : Z) : string := NilZero.string_of_int (Z.to_int z).

Definition type_name (v : pyval) : string :=
  match v with
  | PNone => "NoneType"
  | PBool _ => "bool"
  | PInt _ => "int"
  | PFloat _ => "float"
  | PStr _ => "str"
  | PList _ => "list"
  | PDict _ => "dict"
  end.

(** Lookup of a key in a [dict] with [str] keys. *)
Fixpoint dict_lookup (d : list (string * pyval)) (k : string) : option pyval :=
  match d with
  | [] => None
  | (k', v) :: d' => if String.eqb k' k then Some v else dict_lookup d' k
  end.

(** [v[key]] for a key written as a plain identifier in the source, so that
    [str(KeyError(key))] is the key between single quotes. *)
Definition getitem_str (v : pyval) (key : string) : outcome pyval :=
  match v with
  | PDict d =>
      match dict_lookup d key with
      | Some x => Ok x
      | None => Raise {| exn_cls := KeyError; exn_str := "'" +:+ key +:+ "'" |}
      end
  | PList _ =>
      Raise {| exn_cls := TypeError;
               exn_str := "list indices must be integers or slices, not str" |}
  | PStr _ =>
      Raise {| exn_cls := TypeError;
               exn_str := "string indices must be integers, not 'str'" |}
  | _ =>
      Raise {| exn_cls := TypeError;
               exn_str := "'" +:+ type_name v +:+ "' object is not subscriptable" |}
  end.

(** [v[0]] *)
Definition getitem_0 (v : pyval) : outcome pyval :=
  match v with
  | PList (x :: _) => Ok x
  | PList [] =>
      Raise {| exn_cls := IndexError; exn_str := "list index out of range" |}
  | PStr (String c _) => Ok (PStr (String c EmptyString))
  | PStr EmptyString =>
      Raise {| exn_cls := IndexError; exn_str := "string index out of range" |}
  | PDict _ => Raise {| exn_cls := KeyError; exn_str := "0" |}
  | _ =>
      Raise {| exn_cls := TypeError;
               exn_str := "'" +:+ type_name v +:+ "' object is not subscriptable" |}
  end.

(** [v.get(key, default)] *)
Definition py_get (v : pyval) (key : string) (default : pyval) : outcome pyval :=
  match v with
  | PDict d =>
      match dict_lookup d key with
      | Some x => Ok x
      | None => Ok default
      end
  | _ =>
      Raise {| exn_cls := AttributeError;
               exn_str := "'" +:+ type_name v +:+ "' object has no attribute 'get'" |}
  end.

(** [m * 2^e * 100] rounded to the nearest integer, ties to even: the
    correctly rounded number of hundredths that ['.2f'] prints. *)
Definition hundredths (m : positive) (e : Z) : Z :=
  if 0 <=? e then 100 * Z.pos m * 2 ^ e
  else
    let d := 2 ^ (- e) in
    let q := (100 * Z.pos m) / d in
    let r := (100 * Z.pos m) mod d in
    if 2 * r <? d then q
    else if d <? 2 * r then q + 1
    else if Z.even q then q else q + 1.

Definition fixed2 (neg : bool) (n : Z) : string :=
  (if neg then "-" else "") +:+ dec (n / 100) +:+ "."
  +:+ dec ((n mod 100) / 10) +:+ dec (n mod 10).

(** [f"{x:.2f}"] for a [float]. *)
Definition format_2f (x : spec_float) : string :=
  match x with
  | S754_zero s => fixed2 s 0
  | S754_infinity s => if s then "-inf" else "inf"
  | S754_nan => "nan"
  | S754_finite s m e => fixed2 s (hundredths m e)
  end.

(** [float(n)] for an [int]: nearest binary64, [OverflowError] beyond. *)
Definition float_of_int (z : Z) : outcome spec_float :=
  match binary_normalize 53 1024 z 0 false with
  | S754_infinity _ =>
      Raise {| exn_cls := OverflowError;
               exn_str := "int too large to convert to float" |}
  | f => Ok f
  end.

(** [f"{v:.2f}"] for any value. *)
Definition format_2f_val (v : pyval) : outcome string :=
  match v with
  | PFloat f => Ok (format_2f f)
  | PInt z =>
      match float_of_int z with
      | Ok f => Ok (format_2f f)
      | Raise e => Raise e
      end
  | PBool b => Ok (if b then "1.00" else "0.00")
  | PStr _ =>
      Raise {| exn_cls := ValueError;
               exn_str := "Unknown format code 'f' for object of type 'str'" |}
  | _ =>
      Raise {| exn_cls := TypeError;
               exn_str := "unsupported format string passed to "
                          +:+ type_name v +:+ ".__format__" |}
  end.

Definition float_0 : spec_float := S754_zero false.

(** The float that the decimal literal [num/den] denotes: the quotient,
    correctly rounded to binary64. *)
Definition py_float (num den : Z) : spec_float :=
  SFdiv 53 1024 (binary_normalize 53 1024 num 0 false)
                (binary_normalize 53 1024 den 0 false).


(** [repr] of a tuple of ints, as [numpy] prints a shape. *)
Definition tuple_repr (l : list Z) : string :=
  match l with
  | [] => "()"
  | [x] => "(" +:+ dec x +:+ ",)"
  | x :: l' =>
      "(" +:+ dec x +:+ fold_right (fun y acc => ", " +:+ dec y +:+ acc) ")" l'
  end.

(** ** 3. The world outside the node

    The SDK binding, [requests], PIL, [tempfile], the file system and
    [sys.stdout] are not part of the source.  What they answer is given by the oracles of a
    [World]; the node's calls to them and its [print]s are recorded as a
    trace of events. *)

(** The [image] input: a dense pixel array. *)
Record ndarray := { shape : list Z; pixels : list spec_float }.

(** An [lms.Chat]: the system prompt and the user turns, each with its
    image handles. *)
Record Chat := { chat_system : string; chat_turns : list (string * list string) }.

(** [result.stats] of the SDK: an object whose attributes may be absent. *)
Record Stats := {
  stats_class : string;
  tokens_per_second : option pyval;
  prompt_tokens_count : option pyval;
  predicted_tokens_count : option pyval;
  generation_time_sec : option pyval
}.

(** The object returned by [model.respond]. *)
Record PredictionResult := { content : string; stats : Stats }.

(** The arguments of [requests.post]; [data] is the value that
    [json.dumps] serialises. *)
Record Request := {
  url : string;
  headers : list (string * string);
  data : pyval;
  timeout : Z
}.

(** A [requests.Response]; [json] is what [response.json()] does. *)
Record Response := {
  status_code : Z;
  reason : string;
  response_url : string;
  json : outcome pyval
}.

Inductive event :=
| Print (line : string)
| Call_lms_llm (model_id : string)
| Call_lms_Chat (system_prompt : string)
| Call_lms_prepare_image (path : string)
| Call_add_user_message (message : string) (images : list string)
| Call_respond (model_id : string) (chat : Chat)
               (temperature : spec_float) (maxTokens : Z)
| Call_fromarray (image : ndarray)
| Call_NamedTemporaryFile
| Call_save (path : string)
| Call_unlink (path : string)
| Call_requests_post (req : Request).

Record World := {
  (** the module-level flag set by [import lmstudio as lms] *)
  HAS_SDK : bool;
  (** [repr] of a float or of a container, as the interpreter prints it *)
  py_repr : pyval -> string;
  (** [time.time() - start_time] as measured after the model is loaded *)
  elapsed : spec_float;
  lms_llm : string -> outcome unit;
  lms_Chat : string -> outcome unit;
  lms_prepare_image : string -> outcome string;
  add_user_message : Chat -> string -> list string -> outcome unit;
  respond : string -> Chat -> spec_float -> Z -> outcome PredictionResult;
  (** [Image.fromarray(np.uint8(image[0] * 255))] *)
  Image_fromarray : ndarray -> outcome unit;
  (** the name of the file that [tempfile.NamedTemporaryFile] creates *)
  NamedTemporaryFile : outcome string;
  (** [pil_image.save(temp_path, format="JPEG")] *)
  Image_save : ndarray -> string -> outcome unit;
  (** the error, if any, with which [os.unlink] fails on an existing file *)
  os_unlink : string -> outcome unit;
  requests_post : Request -> outcome Response;
  (** what [print(line)] does: [sys.stdout] takes the line, or refuses it
      ([UnicodeEncodeError] for a character outside its encoding), or is
      closed or broken ([ValueError], [OSError]) *)
  stdout_write : string -> outcome unit
}.

(** What a call works on: the files on disk, and the local variable
    [temp_path] of [_get_response_sdk], which is assigned inside the [try]
    block and read in the [finally] block. *)
Record State := { files : gset string; temp_path : option string }.

(** A computation threads the state, may raise, and appends to the trace. *)
Definition M (A : Type) : Type := State -> outcome A * State * list event.

Definition ret {A} (a : A) : M A := fun st => (Ok a, st, []).

Definition bind {A B} (c : M A) (k : A -> M B) : M B :=
  fun st =>
    match c st with
    | (Ok a, st', tr) =>
        let '(r, st'', tr') := k a st' in (r, st'', tr ++ tr')
    | (Raise e, st', tr) => (Raise e, st', tr)
    end.

Notation "'let!' x ':=' c 'in' k" := (bind c (fun x => k))
  (at level 10, x name, c at level 100, k at level 200).
Notation "c '>>' k" := (bind c (fun _ => k))
  (at level 100, k at level 200, right associativity).

Definition lift {A} (o : outcome A) : M A := fun st => (o, st, []).

Definition emit (ev : event) : M unit := fun st => (Ok tt, st, [ev]).

(** A call to the outside: recorded, then answered by the oracle. *)
Definition call {A} (ev : event) (o : outcome A) : M A := emit ev >> lift o.

(** [print(line)]: the line is recorded, and [sys.stdout] answers; a
    [print] raises what writing the line raises. *)
Definition print (W : World) (line : string) : M unit :=
  call (Print line) (stdout_write W line).

Definition when (b : bool) (c : M unit) : M unit := if b then c else ret tt.

(** [try: body except Exception as e: handler(e)] *)
Definition try_except {A} (body : M A) (handler : exn -> M A) : M A :=
  fun st =>
    match body st with
    | (Ok a, st', tr) => (Ok a, st', tr)
    | (Raise e, st', tr) =>
        let '(r, st'', tr') := handler e st' in (r, st'', tr ++ tr')
    end.

(** [try: body finally: cleanup]: the cleanup runs on every exit of the
    body; an exception raised by the cleanup replaces the body's result. *)
Definition finally {A} (body : M A) (cleanup : M unit) : M A :=
  fun st =>
    let '(r, st', tr) := body st in
    match cleanup st' with
    | (Ok _, st'', tr') => (r, st'', tr ++ tr')
    | (Raise e, st'', tr') => (Raise e, st'', tr ++ tr')
    end.

Definition set_temp_path (p : option string) : M unit :=
  fun st => (Ok tt, {| files := files st; temp_path := p |}, []).

Definition get_temp_path : M (option string) :=
  fun st => (Ok (temp_path st), st, []).

Definition create_file (p : string) : M unit :=
  fun st => (Ok tt, {| files := {[p]} ∪ files st; temp_path := temp_path st |}, []).

Definition remove_file (p : string) : M unit :=
  fun st => (Ok tt, {| files := files st ∖ {[p]}; temp_path := temp_path st |}, []).

(** [os.path.exists(p)] *)
Definition os_path_exists (p : string) : M bool :=
  fun st => (Ok (bool_decide (p ∈ files st)), st, []).

(** [os.unlink(p)] *)
Definition unlink (W : World) (p : string) : M unit :=
  let! there := os_path_exists p in
  if there : bool then call (Call_unlink p) (os_unlink W p) >> remove_file p
  else call (Call_unlink p)
         (Raise {| exn_cls := OSError;
                   exn_str := "[Errno 2] No such file or directory: '"
                              +:+ p +:+ "'" |}).

(** An attribute of the module [lms], which is [None] without the SDK. *)
Definition lms_attr {A} (W : World) (name : string) (o : outcome A) : outcome A :=
  if HAS_SDK W then o
  else Raise {| exn_cls := AttributeError;
                exn_str := "'NoneType' object has no attribute '"
                           +:+ name +:+ "'" |}.

(** Truth value of [temp_path]: neither [None] nor the empty string. *)
Definition truthy (p : option string) : bool :=
  match p with
  | Some s => negb (String.eqb s "")
  | None => false
  end.

(** [str(v)], as an f-string field without a format prints it. *)
Definition py_str (W : World) (v : pyval) : string :=
  match v with
  | PNone => "None"
  | PBool b => if b then "True" else "False"
  | PInt z => dec z
  | PStr s => s
  | _ => py_repr W v
  end.

(** ** 4. The node *)

(** [self.default_stats] *)
Definition default_stats : string :=
  "Tokens per Second: 0.00" +:+ nl +:+ "Input Tokens: 0" +:+ nl
  +:+ "Output Tokens: 0".

(** [LMStudioNode._prepare_image] *)
Definition _prepare_image (W : World) (image : ndarray) (debug : bool)
  : M (option string) :=
  try_except
    (call (Call_fromarray image) (Image_fromarray W image) >>
     let! path := call Call_NamedTemporaryFile (NamedTemporaryFile W) in
     create_file path >>
     call (Call_save path) (Image_save W image path) >>
     when debug (print W ("Debug: Saved image to temporary file: " +:+ path)) >>
     ret (Some path))
    (fun e =>
       when debug (print W ("Debug: Error preparing image: " +:+ exn_str e)) >>
       ret None).

(** [LMStudioNode._format_stats] *)
Definition _format_stats (W : World)
    (tokens_per_sec input_tokens output_tokens : pyval) : outcome string :=
  match format_2f_val tokens_per_sec with
  | Ok t =>
      Ok ("Tokens per Second: " +:+ t +:+ nl
          +:+ "Input Tokens: " +:+ py_str W input_tokens +:+ nl
          +:+ "Output Tokens: " +:+ py_str W output_tokens)
  | Raise e => Raise e
  end.

(** [chat.add_user_message(user_message, images=...)] *)
Definition chat_add (W : World) (chat : Chat) (user_message : string)
    (images : list string) : M Chat :=
  call (Call_add_user_message user_message images)
       (add_user_message W chat user_message images) >>
  ret {| chat_system := chat_system chat;
         chat_turns := chat_turns chat ++ [(user_message, images)] |}.

(** [result.stats.generation_time_sec] *)
Definition get_generation_time_sec (s : Stats) : outcome pyval :=
  match generation_time_sec s with
  | Some v => Ok v
  | None =>
      Raise {| exn_cls := AttributeError;
               exn_str := "'" +:+ stats_class s
                          +:+ "' object has no attribute 'generation_time_sec'" |}
  end.

(** The [try] block of [_get_response_sdk]. *)
Definition _get_response_sdk_try (W : World)
    (system_prompt user_message model_id : string)
    (temperature : spec_float) (max_tokens : Z) (thinking_tokens : bool)
    (image : option ndarray) (debug : bool) : M (pyval * string) :=
  call (Call_lms_llm model_id) (lms_attr W "llm" (lms_llm W model_id)) >>
  when debug
    (print W ("Debug: Model loaded in " +:+ format_2f (elapsed W) +:+ "s")) >>
  call (Call_lms_Chat system_prompt)
       (lms_attr W "Chat" (lms_Chat W system_prompt)) >>
  let chat := {| chat_system := system_prompt; chat_turns := [] |} in
  let! chat :=
    match image with
    | Some img =>
        let! path := _prepare_image W img debug in
        set_temp_path path >>
        match path with
        | Some p =>
            if truthy path then
              let! image_handle :=
                call (Call_lms_prepare_image p)
                     (lms_attr W "prepare_image" (lms_prepare_image W p)) in
              let! chat := chat_add W chat user_message [image_handle] in
              when debug (print W "Debug: Added image to chat message") >>
              ret chat
            else chat_add W chat user_message []
        | None => chat_add W chat user_message []
        end
    | None => chat_add W chat user_message []
    end in
  when debug
    (print W ("Debug: Sending request with config: {'temperature': "
            +:+ py_repr W (PFloat temperature) +:+ ", 'maxTokens': "
            +:+ dec max_tokens +:+ "}")) >>
  let! result :=
    call (Call_respond model_id chat temperature max_tokens)
         (respond W model_id chat temperature max_tokens) in
  when debug
    (print W ("Debug: Response received: "
            +:+ str_of (take 100 (chars (content result))) +:+ "...") >>
     let! g := lift (get_generation_time_sec (stats result)) in
     print W ("Debug: Generation time: " +:+ py_str W g +:+ "s")) >>
  let tokens_per_sec :=
    default (PFloat float_0) (tokens_per_second (stats result)) in
  let input_tokens := default (PInt 0) (prompt_tokens_count (stats result)) in
  let output_tokens :=
    default (PInt 0) (predicted_tokens_count (stats result)) in
  let output :=
    if negb thinking_tokens then _clean_thinking_tokens (content result)
    else content result in
  let! stats_str :=
    lift (_format_stats W tokens_per_sec input_tokens output_tokens) in
  ret (PStr output, stats_str).

(** The [finally] block of [_get_response_sdk]. *)
Definition _get_response_sdk_finally (W : World) (debug : bool) : M unit :=
  let! path := get_temp_path in
  match path with
  | Some p =>
      if truthy path then
        let! there := os_path_exists p in
        if there : bool then
          unlink W p >>
          when debug (print W ("Debug: Removed temporary file: " +:+ p))
        else ret tt
      else ret tt
  | None => ret tt
  end.

(** [LMStudioNode._get_response_sdk] *)
Definition _get_response_sdk (W : World)
    (system_prompt user_message model_id : string)
    (temperature : spec_float) (max_tokens : Z) (thinking_tokens : bool)
    (image : option ndarray) (debug : bool) : M (pyval * string) :=
  set_temp_path None >>
  finally
    (try_except
       (_get_response_sdk_try W system_prompt user_message model_id
          temperature max_tokens thinking_tokens image debug)
       (fun e =>
          let error_message :=
            "Error processing with LM Studio SDK: " +:+ exn_str e in
          print W error_message >>
          ret (PStr error_message, default_stats)))
    (_get_response_sdk_finally W debug).

(** [response.raise_for_status()] of [requests] *)
Definition raise_for_status (r : Response) : outcome unit :=
  if (400 <=? status_code r) && (status_code r <? 500) then
    Raise {| exn_cls := RequestsHTTPError;
             exn_str := dec (status_code r) +:+ " Client Error: " +:+ reason r
                        +:+ " for url: " +:+ response_url r |}
  else if (500 <=? status_code r) && (status_code r <? 600) then
    Raise {| exn_cls := RequestsHTTPError;
             exn_str := dec (status_code r) +:+ " Server Error: " +:+ reason r
                        +:+ " for url: " +:+ response_url r |}
  else Ok tt.

(** [self._clean_thinking_tokens(output)] on a decoded value: [re.sub]
    accepts a [str] only. *)
Definition clean_value (v : pyval) : outcome pyval :=
  match v with
  | PStr s => Ok (PStr (_clean_thinking_tokens s))
  | _ =>
      Raise {| exn_cls := TypeError;
               exn_str := "expected string or bytes-like object, got '"
                          +:+ type_name v +:+ "'" |}
  end.

(** The [payload] of [_get_response_api]. *)
Definition payload (system_prompt user_message model_id : string)
    (temperature : spec_float) : pyval :=
  PDict [("model", PStr model_id);
         ("messages",
          PList [PDict [("role", PStr "system"); ("content", PStr system_prompt)];
                 PDict [("role", PStr "user"); ("content", PStr user_message)]]);
         ("temperature", PFloat temperature);
         ("stream", PBool false)].

(** The request of [_get_response_api]. *)
Definition api_request (system_prompt user_message model_id server_address : string)
    (temperature : spec_float) : Request :=
  {| url := server_address +:+ "/api/v0/chat/completions";
     headers := [("Content-Type", "application/json")];
     data := payload system_prompt user_message model_id temperature;
     timeout := 120 |}.

(** The [try] block of [_get_response_api]. *)
Definition _get_response_api_try (W : World)
    (system_prompt user_message model_id server_address : string)
    (temperature : spec_float) (thinking_tokens : bool) : M (pyval * string) :=
  let req :=
    api_request system_prompt user_message model_id server_address temperature in
  let! response := call (Call_requests_post req) (requests_post W req) in
  lift (raise_for_status response) >>
  let! result := lift (json response) in
  let! choices := lift (getitem_str result "choices") in
  let! choice := lift (getitem_0 choices) in
  let! message := lift (getitem_str choice "message") in
  let! output := lift (getitem_str message "content") in
  let! output :=
    if negb thinking_tokens then lift (clean_value output) else ret output in
  let! usage := lift (py_get result "usage" (PDict [])) in
  let! stats' := lift (py_get result "stats" (PDict [])) in
  let! tokens_per_sec := lift (py_get stats' "tokens_per_second" (PFloat float_0)) in
  let! input_tokens := lift (py_get usage "prompt_tokens" (PInt 0)) in
  let! output_tokens := lift (py_get usage "completion_tokens" (PInt 0)) in
  let! stats_str :=
    lift (_format_stats W tokens_per_sec input_tokens output_tokens) in
  ret (output, stats_str).

(** The [except] clauses of [_get_response_api], in the order of the
    source. *)
Definition _get_response_api_except (server_address : string) (e : exn)
  : M (pyval * string) :=
  if is_ConnectionError e then
    ret (PStr ("Connection error - is LM Studio running at "
               +:+ server_address +:+ "?"), default_stats)
  else if is_Timeout e then
    ret (PStr "Request timed out - try increasing timeout duration",
         default_stats)
  else ret (PStr ("Error: " +:+ exn_str e), default_stats).

(** [LMStudioNode._get_response_api] *)
Definition _get_response_api (W : World)
    (system_prompt user_message model_id server_address : string)
    (temperature : spec_float) (thinking_tokens : bool) (debug : bool)
  : M (pyval * string) :=
  try_except
    (_get_response_api_try W system_prompt user_message model_id
       server_address temperature thinking_tokens)
    (_get_response_api_except server_address).

(** The [if debug:] block at the start of [get_response]. *)
Definition debug_header (W : World) (model_id : string) (use_sdk : bool)
    (image : option ndarray) (debug : bool) : M unit :=
  when debug
    (print W "Debug: Starting get_response method" >>
     print W ("Debug: Model: " +:+ model_id) >>
     print W ("Debug: Use SDK: " +:+ (if use_sdk then "True" else "False")) >>
     print W ("Debug: Has image: "
            +:+ (if image is Some _ then "True" else "False")) >>
     match image with
     | Some img => print W ("Debug: Image shape: " +:+ tuple_repr (shape img))
     | None => ret tt
     end).

(** [LMStudioNode.get_response] *)
Definition get_response (W : World)
    (system_prompt user_message model_id server_address : string)
    (temperature : spec_float) (max_tokens : Z)
    (thinking_tokens use_sdk : bool)
    (image : option ndarray) (debug : bool) : M (pyval * string) :=
  let user_message :=
    if negb thinking_tokens then _clean_thinking_tokens user_message
    else user_message in
  debug_header W model_id use_sdk image debug >>
  if HAS_SDK W && use_sdk then
    _get_response_sdk W system_prompt user_message model_id temperature
      max_tokens thinking_tokens image debug
  else
    when (bool_decide (is_Some image) && debug)
      (print W "Warning: Image input is not supported with API mode. Install LM Studio SDK for image support.") >>
    _get_response_api W system_prompt user_message model_id server_address
      temperature thinking_tokens debug.

(** ** 5. Observations on a trace *)

Definition is_print (ev : event) : bool :=
  match ev with Print _ => true | _ => false end.

(** The calls to the outside, without the printed lines. *)
Definition calls (tr : list event) : list event :=
  filter (fun ev => is_print ev = false) tr.



Definition creates_temp_file (tr : list event) : bool :=
  existsb (fun ev => match ev with Call_NamedTemporaryFile => true | _ => false end) tr.

Definition calls_unlink (tr : list event) : bool :=
  existsb (fun ev => match ev with Call_unlink _ => true | _ => false end) tr.

(** The user message that a call hands to a transport: the text of an SDK
    chat turn, or the content of the user entry of an HTTP request body. *)
Definition user_message_of (ev : event) : option string :=
  match ev with
  | Call_add_user_message m _ => Some m
  | Call_requests_post req =>
      match data req with
      | PDict d =>
          match dict_lookup d "messages" with
          | Some (PList [_; PDict u]) =>
              match dict_lookup u "content" with
              | Some (PStr m) => Some m
              | _ => None
              end
          | _ => None
          end
      | _ => None
      end
  | _ => None
  end.

Definition sent_user_messages (tr : list event) : list string :=
  omap user_message_of tr.

(** An event that does not create the temporary file. *)
Definition not_temp_file_event (ev : event) : Prop :=
  match ev with Call_NamedTemporaryFile => False | _ => True end.

(** An event that hands over no user message but [message]. *)
Definition hands_over (message : string) (ev : event) : Prop :=
  forall m, user_message_of ev = Some m -> m = message.

(** [e] is an error with which [os.unlink] fails on some file. *)
Definition unlink_failure (W : World) (e : exn) : Prop :=
  exists p, os_unlink W p = Raise e.

(** [sys.stdout] takes every line: no [print] raises. *)
Definition prints_ok (W : World) : Prop :=
  forall line, stdout_write W line = Ok tt.

(** [e] is an error with which [print] fails on some line. *)
Definition print_failure (W : World) (e : exn) : Prop :=
  exists line, stdout_write W line = Raise e.

(** A response text holds a span. *)
Definition response_has_span (v : pyval) : bool :=
  match v with
  | PStr s => has_span (chars s)
  | _ => false
  end.

(** [result['choices'][0]['message']['content']] *)
Definition completion_of (result : pyval) : outcome pyval :=
  match getitem_str result "choices" with
  | Ok choices =>
      match getitem_0 choices with
      | Ok choice =>
          match getitem_str choice "message" with
          | Ok message => getitem_str message "content"
          | Raise e => Raise e
          end
      | Raise e => Raise e
      end
  | Raise e => Raise e
  end.

(** The response texts of the [except] clauses. *)
Definition is_error_text (server_address : string) (v : pyval) : Prop :=
  (exists e, v = PStr ("Error processing with LM Studio SDK: " +:+ exn_str e)) \/
  v = PStr ("Connection error - is LM Studio running at "
            +:+ server_address +:+ "?") \/
  v = PStr "Request timed out - try increasing timeout duration" \/
  (exists e, v = PStr ("Error: " +:+ exn_str e)).

(** [v] is the filter's output on the completion text that the SDK or the
    HTTP server returned for this call. *)
Definition is_filtered_completion (W : World)
    (system_prompt message model_id server_address : string)
    (temperature : spec_float) (max_tokens : Z) (v : pyval) : Prop :=
  (exists chat result,
      respond W model_id chat temperature max_tokens = Ok result /\
      v = PStr (_clean_thinking_tokens (content result))) \/
  (exists resp body c,
      requests_post W (api_request system_prompt message model_id
                         server_address temperature) = Ok resp /\
      json resp = Ok body /\
      completion_of body = Ok (PStr c) /\
      v = PStr (_clean_thinking_tokens c)).

(** ** 6. Properties of computations

    What every run of a computation emits, returns and raises. *)

Definition emits {A} (Q : event -> Prop) (c : M A) : Prop :=
  forall st, Forall Q (c st).2.

Definition emits_some {A} (ev : event) (c : M A) : Prop :=
  forall st, ev ∈ (c st).2.

Definition returns {A} (P : A -> Prop) (c : M A) : Prop :=
  forall st a, (c st).1.1 = Ok a -> P a.

Definition raises {A} (P : exn -> Prop) (c : M A) : Prop :=
  forall st e, (c st).1.1 = Raise e -> P e.

Definition total {A} (c : M A) : Prop :=
  forall st, exists a, (c st).1.1 = Ok a.

(** ** 7. Example worlds *)

(** The response body of the specification's HTTP example. *)
Definition example_body : pyval :=
  PDict [("choices", PList [PDict [("message", PDict [("content", PStr "Hello")])]]);
         ("usage", PDict [("prompt_tokens", PInt 5); ("completion_tokens", PInt 2)]);
         ("stats", PDict [("tokens_per_second", PFloat (py_float 30 10))])].

Definition example_response : Response :=
  {| status_code := 200; reason := "OK";
     response_url := "http://127.0.0.1:1234/api/v0/chat/completions";
     json := Ok example_body |}.

(** An SDK result with the three statistics of the binding contract and
    no attribute [generation_time_sec]. *)
Definition example_result : PredictionResult :=
  {| content := "Hi";
     stats := {| stats_class := "LlmPredictionStats";
                 tokens_per_second := Some (PFloat (py_float 12345 1000));
                 prompt_tokens_count := Some (PInt 10);
                 predicted_tokens_count := Some (PInt 20);
                 generation_time_sec := None |} |}.

(** A world in which everything works, except what the arguments say. *)
Definition example_world (has_sdk : bool) (save unlinked : outcome unit)
    (post : outcome Response) : World :=
  {| HAS_SDK := has_sdk;
     py_repr := fun _ => "0.7";
     elapsed := py_float 15 10;
     lms_llm := fun _ => Ok tt;
     lms_Chat := fun _ => Ok tt;
     lms_prepare_image := fun p => Ok ("image:" +:+ p);
     add_user_message := fun _ _ _ => Ok tt;
     respond := fun _ _ _ _ => Ok example_result;
     Image_fromarray := fun _ => Ok tt;
     NamedTemporaryFile := Ok "/tmp/tmpk3x9.jpg";
     Image_save := fun _ _ => save;
     os_unlink := fun _ => unlinked;
     requests_post := fun _ => post;
     stdout_write := fun _ => Ok tt |}.

(** A world with the SDK in which saving the JPEG fails, as PIL does for an
    image with an alpha channel. *)
Definition save_fails_world : World :=
  example_world true
    (Raise {| exn_cls := OSError;
              exn_str := "cannot write mode RGBA as JPEG" |})
    (Ok tt) (Ok example_response).

(** A world with the SDK in which the temporary file cannot be deleted. *)
Definition unlink_fails_world : World :=
  example_world true (Ok tt)
    (Raise {| exn_cls := OSError;
              exn_str := "[WinError 32] The process cannot access the file because it is being used by another process: '/tmp/tmpk3x9.jpg'" |})
    (Ok example_response).

(** A world with the SDK in which everything works. *)
Definition sdk_world : World :=
  example_world true (Ok tt) (Ok tt) (Ok example_response).

(** A world without the SDK, with the HTTP server of the example. *)
Definition http_world : World :=
  example_world false (Ok tt) (Ok tt) (Ok example_response).

(** A world without the SDK in which the server refuses the connection. *)
Definition refused_world : World :=
  example_world false (Ok tt) (Ok tt)
    (Raise {| exn_cls := RequestsConnectionError;
              exn_str := "HTTPConnectionPool(host='127.0.0.1', port=1): Max retries exceeded" |}).

Definition no_files : State := {| files := ∅; temp_path := None |}.

(** A 2x2 image with three channels, and one with four. *)
Definition rgb_image : ndarray := {| shape := [1; 2; 2; 3]; pixels := [] |}.
Definition rgba_image : ndarray := {| shape := [1; 2; 2; 4]; pixels := [] |}.


(** ** 8. Further observations *)


Definition calls_respond (tr : list event) : bool :=
  existsb (fun ev => match ev with Call_respond _ _ _ _ => true | _ => false end) tr.

(** A call of [model.respond] is made for the given model, with a chat
    that holds the given system prompt and one user turn with the given
    message, and with the given temperature and [maxTokens]. *)
Definition respond_as_given (model_id system_prompt message : string)
    (temperature : spec_float) (max_tokens : Z) (ev : event) : Prop :=
  match ev with
  | Call_respond m chat t mt =>
      m = model_id /\ chat_system chat = system_prompt /\
      (exists images, chat_turns chat = [(message, images)]) /\
      t = temperature /\ mt = max_tokens
  | _ => True
  end.

(** The chat of the SDK path once the user turn is added. *)
Definition one_turn (system_prompt message : string) (chat : Chat) : Prop :=
  chat_system chat = system_prompt /\
  exists images, chat_turns chat = [(message, images)].

(** The local [temp_path] holds nothing but the name that
    [NamedTemporaryFile] gives. *)
Definition temp_path_ok (W : World) (st : State) : Prop :=
  forall p, temp_path st = Some p -> NamedTemporaryFile W = Ok p.

(** Every file but the one [NamedTemporaryFile] names is on disk after
    exactly when it was before. *)
Definition others_same (W : World) (st st' : State) : Prop :=
  forall q, NamedTemporaryFile W <> Ok q -> (q ∈ files st' <-> q ∈ files st).

(** A computation that touches no file but the temporary one. *)
Definition frames {A} (W : World) (c : M A) : Prop :=
  forall st,
    temp_path_ok W st ->
    temp_path_ok W (c st).1.2 /\ others_same W st (c st).1.2.

(* ===================================================================== *)
(** * Part II.  Lemmas and theorems                                       *)
(* ===================================================================== *)

(** ** Text lemmas *)

Lemma chars_str_of t : chars (str_of t) = t.
Proof. apply list_ascii_of_string_of_list_ascii. Qed.

Lemma str_of_chars s : str_of (chars s) = s.
Proof. apply string_of_list_ascii_of_string. Qed.

Lemma starts_with_app p s : starts_with p (p ++ s) = true.
Proof.
  induction p as [|a p IH]; simpl; [done|].
  by rewrite Ascii.eqb_refl, IH.
Qed.

Lemma starts_with_inv p s :
  starts_with p s = true -> s = p ++ drop (length p) s.
Proof.
  revert s; induction p as [|a p IH]; intros [|b s] H; simpl in *; try done.
  apply andb_prop in H as [E H]. apply Ascii.eqb_eq in E. subst b.
  f_equal. by apply IH.
Qed.

Lemma starts_with_mono p s w :
  starts_with p s = true -> starts_with p (s ++ w) = true.
Proof.
  revert s; induction p as [|a p IH]; intros [|b s] H; simpl in *; try done.
  apply andb_prop in H as [E H]. rewrite E. simpl. by apply IH.
Qed.

Lemma starts_with_length p s :
  starts_with p s = true -> (length p <= length s)%nat.
Proof.
  intros H. apply starts_with_inv in H. rewrite H, length_app. lia.
Qed.

Lemma contains_cons p c s :
  contains p (c :: s) = starts_with p (c :: s) || contains p s.
Proof. reflexivity. Qed.

Lemma contains_here p s : starts_with p s = true -> contains p s = true.
Proof. intros H. destruct s; simpl in *; by rewrite H. Qed.

Lemma contains_app_r p u s : contains p s = true -> contains p (u ++ s) = true.
Proof.
  intros H. induction u as [|c u IH]; [done|].
  rewrite <- app_comm_cons, contains_cons, IH. apply orb_true_r.
Qed.

Lemma contains_app_l p s w : contains p s = true -> contains p (s ++ w) = true.
Proof.
  induction s as [|c s IH].
  - simpl. rewrite orb_false_r. intros H. apply contains_here.
    by apply (starts_with_mono p [] w).
  - rewrite <- app_comm_cons, !contains_cons.
    intros H. apply orb_prop in H as [H|H].
    + pose proof (starts_with_mono p (c :: s) w H) as H'.
      change ((c :: s) ++ w) with (c :: s ++ w) in H'. by rewrite H'.
    + rewrite (IH H). apply orb_true_r.
Qed.

Lemma contains_cons_false p c s :
  contains p (c :: s) = false ->
  starts_with p (c :: s) = false /\ contains p s = false.
Proof. rewrite contains_cons. intros H. by apply orb_false_elim in H. Qed.

Lemma starts_with_short q s w :
  starts_with q (s ++ w) = true -> (length q <= length s)%nat ->
  starts_with q s = true.
Proof.
  revert s; induction q as [|a q IH]; intros [|b s] H L; simpl in *;
    try done; try lia.
  apply andb_prop in H as [E H]. rewrite E. simpl. apply IH; [done|lia].
Qed.

Lemma starts_with_drop q u v :
  starts_with q (u ++ v) = true -> starts_with (drop (length u) q) v = true.
Proof.
  revert q; induction u as [|c u IH]; intros q H; [by rewrite drop_0|].
  destruct q as [|a q]; [by destruct v|].
  simpl in H. apply andb_prop in H as [_ H]. by apply IH.
Qed.

Lemma no_straddle p u w :
  borderless p = true ->
  starts_with p (u ++ p ++ w) = true -> contains p u = false -> u = [].
Proof.
  intros B H C. destruct u as [|c u]; [done|]. exfalso.
  destruct (le_lt_dec (length p) (length (c :: u))) as [L|L].
  - apply starts_with_short in H; [|done].
    apply contains_here in H. congruence.
  - apply starts_with_drop in H.
    apply starts_with_short in H; [|rewrite length_drop; lia].
    unfold borderless in B. rewrite forallb_forall in B.
    specialize (B (length (c :: u))). rewrite H in B.
    assert (HI : In (length (c :: u)) (seq 1 (length p - 1))).
    { apply in_seq. simpl in *. lia. }
    specialize (B HI). done.
Qed.

Lemma open_borderless : borderless open_tag = true.
Proof. reflexivity. Qed.

Lemma close_borderless : borderless close_tag = true.
Proof. reflexivity. Qed.

Lemma find_cons p c s :
  find p (c :: s) =
  if starts_with p (c :: s) then Some 0%nat else option_map S (find p s).
Proof. reflexivity. Qed.

Lemma find_first p b w :
  borderless p = true -> contains p b = false ->
  find p (b ++ p ++ w) = Some (length b).
Proof.
  intros B. induction b as [|c b IH]; intros C.
  - change ([] ++ p ++ w) with (p ++ w).
    pose proof (starts_with_app p w) as E.
    destruct (p ++ w); simpl in *; by rewrite E.
  - rewrite <- app_comm_cons, find_cons.
    destruct (starts_with p (c :: b ++ p ++ w)) eqn:E.
    + by apply (no_straddle p (c :: b) w B) in E.
    + apply contains_cons_false in C as [_ C]. by rewrite (IH C).
Qed.

Lemma find_Some p s k :
  p <> [] -> find p s = Some k ->
  exists b w, s = b ++ p ++ w /\ length b = k /\ contains p b = false.
Proof.
  intros Hp. revert k. induction s as [|c s IH]; intros k H.
  - destruct p; [done|]. discriminate.
  - rewrite find_cons in H. destruct (starts_with p (c :: s)) eqn:E.
    + injection H as <-. exists [], (drop (length p) (c :: s)).
      split; [by apply starts_with_inv|]. split; [done|]. by destruct p.
    + destruct (find p s) as [k'|] eqn:F; [|done]. injection H as <-.
      destruct (IH k' eq_refl) as (b & w & -> & <- & C).
      exists (c :: b), w. split; [done|]. split; [done|].
      rewrite contains_cons, C, orb_false_r.
      destruct (starts_with p (c :: b)) eqn:E'; [|done].
      apply (starts_with_mono _ _ (p ++ w)) in E'. simpl in E', E. congruence.
Qed.

Lemma find_None p s : find p s = None -> contains p s = false.
Proof.
  induction s as [|c s IH]; simpl.
  - by destruct (starts_with p []).
  - destruct (starts_with p (c :: s)); [done|].
    destruct (find p s); [done|]. intros _. by rewrite IH.
Qed.

Lemma match_at_open_false s :
  starts_with open_tag s = false -> match_at s = None.
Proof. unfold match_at. by intros ->. Qed.

Lemma match_at_span b w :
  contains close_tag b = false ->
  match_at (open_tag ++ b ++ close_tag ++ w) = Some (7 + length b + 8)%nat.
Proof.
  intros C. unfold match_at. rewrite starts_with_app.
  change 7%nat with (length open_tag) at 1. rewrite drop_app_length.
  by rewrite (find_first _ _ _ close_borderless C).
Qed.

Lemma sub_from_cons0 c s :
  sub_from 0 (c :: s) =
  match match_at (c :: s) with
  | Some (S k) => sub_from k s
  | _ => c :: sub_from 0 s
  end.
Proof. reflexivity. Qed.

Lemma sub_from_skip k s : sub_from k s = sub_from 0 (drop k s).
Proof.
  revert k. induction s as [|c s IH]; intros [|k]; try done.
  change (sub_from (S k) (c :: s)) with (sub_from k s). by rewrite IH.
Qed.

Lemma sub_no_open t0 w :
  contains open_tag t0 = false ->
  sub_from 0 (t0 ++ open_tag ++ w) = t0 ++ sub_from 0 (open_tag ++ w).
Proof.
  induction t0 as [|c t0 IH]; intros C; [done|].
  rewrite <- !app_comm_cons, sub_from_cons0.
  rewrite match_at_open_false.
  - apply contains_cons_false in C as [_ C]. by rewrite (IH C).
  - destruct (starts_with open_tag (c :: t0 ++ open_tag ++ w)) eqn:E; [|done].
    by apply (no_straddle _ (c :: t0) w open_borderless) in E.
Qed.

Lemma sub_span b rest :
  contains close_tag b = false ->
  sub_from 0 (open_tag ++ b ++ close_tag ++ rest) = sub_from 0 rest.
Proof.
  intros C. pose proof (match_at_span b rest C) as M.
  remember (open_tag ++ b ++ close_tag ++ rest) as t eqn:Et.
  assert (D : drop (7 + length b + 8) t = rest).
  { subst t. rewrite !app_assoc. apply drop_app_length'.
    rewrite !length_app. reflexivity. }
  destruct t as [|c t]; [done|].
  rewrite sub_from_cons0, M. simpl. rewrite sub_from_skip.
  simpl in D. by rewrite D.
Qed.

Lemma sub_no_span t : has_span t = false -> sub_from 0 t = t.
Proof.
  induction t as [|c t IH]; [done|]. simpl has_span.
  intros H. apply orb_false_elim in H as [M H].
  rewrite sub_from_cons0. destruct (match_at (c :: t)).
  - by rewrite bool_decide_eq_false in M; destruct M.
  - by rewrite (IH H).
Qed.

(** One pass of [re.sub] removes exactly the spans of the decomposition. *)
Lemma Spans_sub t r : Spans t r -> re_sub_think t = r.
Proof.
  unfold re_sub_think. induction 1 as [t H|t0 b rest r C1 C2 _ IH].
  - by apply sub_no_span.
  - by rewrite (sub_no_open _ _ C1), (sub_span _ _ C2), IH.
Qed.

Lemma has_span_split t :
  has_span t = true ->
  exists t0 b rest,
    t = t0 ++ open_tag ++ b ++ close_tag ++ rest /\
    contains open_tag t0 = false /\ contains close_tag b = false.
Proof.
  induction t as [|c t IH]; [done|]. simpl has_span. intros H.
  destruct (match_at (c :: t)) as [n|] eqn:M.
  - clear H IH. unfold match_at in M.
    destruct (starts_with open_tag (c :: t)) eqn:E; [|done].
    destruct (find close_tag (drop 7 (c :: t))) as [k|] eqn:F; [|done].
    apply find_Some in F as (b & w & F & _ & C); [|done].
    exists [], b, w. split; [|done].
    apply starts_with_inv in E. rewrite E.
    change (length open_tag) with 7%nat. by rewrite F.
  - rewrite bool_decide_eq_false_2 in H by (by intros [? ?]).
    destruct (IH H) as (t0 & b & rest & -> & C1 & C2).
    exists (c :: t0), b, rest. split; [done|]. split; [|done].
    rewrite contains_cons, C1, orb_false_r.
    destruct (starts_with open_tag (c :: t0)) eqn:E; [|done]. exfalso.
    unfold match_at in M.
    pose proof (starts_with_mono _ _ (open_tag ++ b ++ close_tag ++ rest) E)
      as E'.
    change ((c :: t0) ++ open_tag ++ b ++ close_tag ++ rest)
      with (c :: t0 ++ open_tag ++ b ++ close_tag ++ rest) in E'.
    rewrite E' in M.
    destruct (find close_tag
                (drop 7 (c :: t0 ++ open_tag ++ b ++ close_tag ++ rest)))
      eqn:F; [done|].
    apply find_None in F.
    apply starts_with_length in E.
    rewrite app_comm_cons, drop_app_le in F by exact E.
    rewrite contains_app_r in F; [done|].
    do 2 apply contains_app_r. apply contains_here, starts_with_app.
Qed.

(** Every text has a decomposition. *)
Lemma Spans_total t : exists r, Spans t r.
Proof.
  remember (length t) as n eqn:En. revert t En.
  induction n as [n IH] using lt_wf_ind. intros t ->.
  destruct (has_span t) eqn:H.
  - destruct (has_span_split t H) as (t0 & b & rest & -> & C1 & C2).
    destruct (IH (length rest)) with (t := rest) as [r Hr]; [|done|].
    + rewrite !length_app. cbn. lia.
    + exists (t0 ++ r). by constructor.
  - exists t. by constructor.
Qed.

Lemma lstrip_spec s :
  exists u, s = u ++ lstrip s /\ forallb is_space u = true /\
            forall c, head (lstrip s) = Some c -> is_space c = false.
Proof.
  induction s as [|c s (u & E & U & Hd)].
  - by exists [].
  - simpl. destruct (is_space c) eqn:Sp.
    + exists (c :: u). simpl. rewrite Sp, U. by rewrite E at 1.
    + exists []. repeat split. simpl. by intros ? [= <-].
Qed.

Lemma rstrip_spec s :
  exists v, s = rstrip s ++ v /\ forallb is_space v = true /\
            forall c, last (rstrip s) = Some c -> is_space c = false.
Proof.
  unfold rstrip. destruct (lstrip_spec (reverse s)) as (u & E & U & Hd).
  exists (reverse u). split; [|split].
  - by rewrite <- reverse_app, <- E, reverse_involutive.
  - rewrite forallb_forall in *. intros x Hx. apply U.
    rewrite <- list_elem_of_In in *. by apply elem_of_reverse.
  - intros c. rewrite last_reverse. apply Hd.
Qed.

Lemma strip_Trimmed r : Trimmed r (strip r).
Proof.
  unfold strip. destruct (lstrip_spec r) as (u & E & U & Hd).
  destruct (rstrip_spec (lstrip r)) as (v & E' & V & Hl).
  exists u, v. split; [by rewrite <- E', <- E|]. repeat split; try done.
  intros c Hc. apply Hd. rewrite E'.
  destruct (rstrip (lstrip r)); [done|]. exact Hc.
Qed.

Lemma match_at_is_Some s :
  is_Some (match_at s) <->
  starts_with open_tag s = true /\ contains close_tag (drop 7 s) = true.
Proof.
  unfold match_at. destruct (starts_with open_tag s); [|split].
  - destruct (find close_tag (drop 7 s)) as [k|] eqn:F.
    + split; [|by eauto]. intros _. split; [done|].
      apply find_Some in F as (b & w & -> & _ & _); [|done].
      apply contains_app_r, contains_here, starts_with_app.
    + apply find_None in F. rewrite F. split; [by intros [? ?]|by intros [_ ?]].
  - by intros [? ?].
  - by intros [? _].
Qed.

Lemma has_span_cons c s :
  has_span (c :: s) = bool_decide (is_Some (match_at (c :: s))) || has_span s.
Proof. reflexivity. Qed.

Lemma has_span_app_r u s : has_span s = true -> has_span (u ++ s) = true.
Proof.
  intros H. induction u as [|c u IH]; [done|].
  rewrite <- app_comm_cons, has_span_cons, IH. apply orb_true_r.
Qed.

Lemma has_span_app_l s w : has_span s = true -> has_span (s ++ w) = true.
Proof.
  induction s as [|c s IH]; [done|].
  rewrite <- app_comm_cons, !has_span_cons. intros H.
  apply orb_prop in H as [H|H]; [|rewrite (IH H); apply orb_true_r].
  apply bool_decide_eq_true in H. apply match_at_is_Some in H as [E C].
  rewrite bool_decide_eq_true_2; [done|]. apply match_at_is_Some.
  rewrite app_comm_cons. split; [by apply starts_with_mono|].
  rewrite drop_app_le by (by apply starts_with_length in E).
  by apply contains_app_l.
Qed.

(** A text without a span keeps none when whitespace is trimmed. *)
Lemma strip_no_span r : has_span r = false -> has_span (strip r) = false.
Proof.
  intros H. destruct (strip_Trimmed r) as (u & v & E & _).
  destruct (has_span (strip r)) eqn:S; [|done].
  apply (has_span_app_l _ v), (has_span_app_r u) in S. congruence.
Qed.

Example clean_ex1 :
  _clean_thinking_tokens "  <think>a
b</think> hello <think></think>world  " = "hello world".
Proof. vm_compute. reflexivity. Qed.

Example clean_ex2 :
  _clean_thinking_tokens "<thi<think>x</think>nk>y</think>" = "<think>y</think>".
Proof. vm_compute. reflexivity. Qed.

(** ** Formatting lemmas *)




















(** ** The HTTP path *)

(** Unfolding of the monad, and case analysis on what the oracles and the
    partial operations answer. *)
Ltac unfold_monad :=
  cbv beta iota delta
    [bind ret lift emit print call when try_except finally
     set_temp_path get_temp_path create_file remove_file os_path_exists].

Ltac case_step :=
  match goal with
  | H : prints_ok ?W |- context [stdout_write ?W ?line] => rewrite (H line)
  | |- context [match ?x with Ok _ => _ | Raise _ => _ end] =>
      destruct x eqn:?
  | |- context [if ?b then _ else _] => destruct b eqn:?
  | |- context [match ?x with Some _ => _ | None => _ end] =>
      destruct x eqn:?
  end.

Ltac run := unfold_monad; repeat (case_step; simpl).

(** The HTTP path posts exactly one request, touches no file and always
    returns a pair. *)
Lemma get_response_api_run W sp um mi sa t th dbg st :
  exists v,
    _get_response_api W sp um mi sa t th dbg st =
    (Ok v, st, [Call_requests_post (api_request sp um mi sa t)]).
Proof.
  unfold _get_response_api, _get_response_api_try, _get_response_api_except.
  run; eauto.
Qed.

(** The same for [get_response] when it routes to the HTTP path and its
    prints succeed: before the request it only prints. *)
Lemma get_response_http_run W sp um mi sa t mt th us im dbg st :
  (dbg = true -> prints_ok W) ->
  HAS_SDK W && us = false ->
  exists v prints,
    get_response W sp um mi sa t mt th us im dbg st =
    (Ok v, st,
     prints ++ [Call_requests_post
                  (api_request sp (if negb th then _clean_thinking_tokens um
                                   else um) mi sa t)]) /\
    (_get_response_api W sp (if negb th then _clean_thinking_tokens um else um)
       mi sa t th dbg st).1.1 = Ok v /\
    forallb is_print prints = true /\
    (Print "Warning: Image input is not supported with API mode. Install LM Studio SDK for image support."
       ∈ prints <-> is_Some im /\ dbg = true).
Proof.
  intros G H. unfold get_response, debug_header. rewrite H.
  set (um' := if negb th then _clean_thinking_tokens um else um).
  destruct (get_response_api_run W sp um' mi sa t th dbg st) as [v Hv].
  unfold bind at 1.
  destruct dbg; [specialize (G eq_refl); unfold prints_ok in G|clear G];
    destruct im as [img|]; unfold_monad; rewrite ?G; simpl; rewrite Hv; simpl.
  - eexists v, [_; _; _; _; _; _]. do 3 (split; [reflexivity|]).
    split; [by eauto|]. intros _. set_solver.
  - eexists v, [_; _; _; _]. do 3 (split; [reflexivity|]).
    split; [|by intros [[? [=]] _]].
    rewrite !elem_of_cons, elem_of_nil.
    intros [|[|[|[|]]]]; try done; destruct us; discriminate.
  - eexists v, []. do 3 (split; [reflexivity|]).
    split; [by intros ?%elem_of_nil|by intros [_ [=]]].
  - eexists v, []. do 3 (split; [reflexivity|]).
    split; [by intros ?%elem_of_nil|by intros [_ [=]]].
Qed.

(** C9.  On the HTTP path [max_tokens] has no effect: two calls that
    differ only in [max_tokens] run identically, whatever happens; they
    leave the same state, make the same calls and return the same pair or
    raise the same exception.  When the debug prints succeed, or [debug] is
    off, the one call they make is the post of the request, which is built
    without [max_tokens]. *)
Theorem max_tokens_unused_on_http_path :
  forall (W : World) (system_prompt user_message model_id server_address : string)
         (temperature : spec_float) (max_tokens1 max_tokens2 : Z)
         (thinking_tokens use_sdk : bool) (image : option ndarray)
         (debug : bool) (st : State),
    HAS_SDK W && use_sdk = false ->
    get_response W system_prompt user_message model_id server_address
      temperature max_tokens1 thinking_tokens use_sdk image debug st =
    get_response W system_prompt user_message model_id server_address
      temperature max_tokens2 thinking_tokens use_sdk image debug st /\
    ((debug = true -> prints_ok W) ->
     exists v prints,
       get_response W system_prompt user_message model_id server_address
         temperature max_tokens1 thinking_tokens use_sdk image debug st =
       (Ok v, st,
        prints ++ [Call_requests_post
                     (api_request system_prompt
                        (if negb thinking_tokens
                         then _clean_thinking_tokens user_message
                         else user_message)
                        model_id server_address temperature)]) /\
       forallb is_print prints = true).
Proof.
  intros W sp um mi sa t m1 m2 th us im dbg st H. split.
  - unfold get_response. rewrite H. reflexivity.
  - intros G.
    destruct (get_response_http_run W sp um mi sa t m1 th us im dbg st G H)
      as (v & prints & E & _ & P & _).
    by exists v, prints.
Qed.

Lemma max_tokens_unused_on_http_path_witness :
  get_response (example_world false (Ok tt) (Ok tt) (Ok example_response))
    "You are a helpful assistant." "Hello?" "m" "http://127.0.0.1:1234"
    (py_float 7 10) 1 true true None false no_files =
  get_response (example_world false (Ok tt) (Ok tt) (Ok example_response))
    "You are a helpful assistant." "Hello?" "m" "http://127.0.0.1:1234"
    (py_float 7 10) 4096 true true None false no_files.
Proof.
  apply (max_tokens_unused_on_http_path
           (example_world false (Ok tt) (Ok tt) (Ok example_response))).
  reflexivity.
Defined.

Lemma raise_for_status_2xx r :
  200 <= status_code r < 300 -> raise_for_status r = Ok tt.
Proof.
  intros H. unfold raise_for_status.
  destruct (400 <=? status_code r) eqn:E1; [apply Z.leb_le in E1; lia|].
  destruct (500 <=? status_code r) eqn:E2; [apply Z.leb_le in E2; lia|done].
Qed.

(** C6.  On the HTTP path the request is a POST of the JSON object
    [{model, messages: [system, user], temperature, stream: false}] to
    [server_address + "/api/v0/chat/completions"] with a timeout of 120
    seconds.  On a 2xx response whose body has the expected shape, with
    [thinking_tokens = True], the node returns the content and the three
    statistics lines, an absent [usage] or [stats] field counting as zero;
    on the body of the specification's example the pair is
    [("Hello", "Tokens per Second: 3.00\nInput Tokens: 5\nOutput Tokens: 2")]. *)
Theorem http_request_and_success :
  forall (W : World) (system_prompt user_message model_id server_address : string)
         (temperature : spec_float) (debug : bool) (st : State),
    let req := api_request system_prompt user_message model_id server_address
                 temperature in
    let run := _get_response_api W system_prompt user_message model_id
                 server_address temperature true debug st in
    (url req = server_address +:+ "/api/v0/chat/completions" /\
     headers req = [("Content-Type", "application/json")] /\
     data req =
       PDict [("model", PStr model_id);
              ("messages",
               PList [PDict [("role", PStr "system");
                             ("content", PStr system_prompt)];
                      PDict [("role", PStr "user");
                             ("content", PStr user_message)]]);
              ("temperature", PFloat temperature);
              ("stream", PBool false)] /\
     timeout req = 120) /\
    (exists v, run = (Ok v, st, [Call_requests_post req])) /\
    (forall resp d more md cd c ud sd tps inp out,
        requests_post W req = Ok resp ->
        200 <= status_code resp < 300 ->
        json resp = Ok (PDict d) ->
        dict_lookup d "choices" = Some (PList (PDict md :: more)) ->
        dict_lookup md "message" = Some (PDict cd) ->
        dict_lookup cd "content" = Some c ->
        (dict_lookup d "usage" = Some (PDict ud) \/
         dict_lookup d "usage" = None /\ ud = []) ->
        (dict_lookup d "stats" = Some (PDict sd) \/
         dict_lookup d "stats" = None /\ sd = []) ->
        default (PFloat float_0) (dict_lookup sd "tokens_per_second")
          = PFloat tps ->
        default (PInt 0) (dict_lookup ud "prompt_tokens") = PInt inp ->
        default (PInt 0) (dict_lookup ud "completion_tokens") = PInt out ->
        run =
        (Ok (c, "Tokens per Second: " +:+ format_2f tps +:+ nl
                +:+ "Input Tokens: " +:+ dec inp +:+ nl
                +:+ "Output Tokens: " +:+ dec out),
         st, [Call_requests_post req])) /\
    (forall resp,
        requests_post W req = Ok resp ->
        200 <= status_code resp < 300 ->
        json resp = Ok example_body ->
        run =
        (Ok (PStr "Hello", "Tokens per Second: 3.00
Input Tokens: 5
Output Tokens: 2"),
         st, [Call_requests_post req])).
Proof.
  intros W sp um mi sa t dbg st req run.
  split; [done|]. split; [apply get_response_api_run|]. split.
  - intros resp d more md cd c ud sd tps inp out Hp Hs Hj Hc Hm Hco Hu Hst
           Ht Hi Ho.
    subst run.
    unfold _get_response_api, _get_response_api_try. unfold_monad.
    fold req. rewrite Hp, (raise_for_status_2xx _ Hs), Hj. simpl.
    rewrite Hc. simpl. rewrite Hm. simpl. rewrite Hco. simpl.
    assert (Eu : (match dict_lookup d "usage" with
                  | Some x => Ok x | None => Ok (PDict [])
                  end) = Ok (PDict ud)).
    { destruct Hu as [->|[-> ->]]; done. }
    assert (Es : (match dict_lookup d "stats" with
                  | Some x => Ok x | None => Ok (PDict [])
                  end) = Ok (PDict sd)).
    { destruct Hst as [->|[-> ->]]; done. }
    rewrite Eu, Es. simpl.
    destruct (dict_lookup sd "tokens_per_second");
      destruct (dict_lookup ud "prompt_tokens");
      destruct (dict_lookup ud "completion_tokens");
      simpl in Ht, Hi, Ho; simplify_eq; simpl; reflexivity.
  - intros resp Hp Hs Hj. subst run.
    unfold _get_response_api, _get_response_api_try. unfold_monad.
    fold req. rewrite Hp, (raise_for_status_2xx _ Hs), Hj.
    vm_compute. reflexivity.
Qed.

Lemma http_request_and_success_witness :
  _get_response_api (example_world false (Ok tt) (Ok tt) (Ok example_response))
    "You are a helpful assistant." "Hello?" "m" "http://127.0.0.1:1234"
    (py_float 7 10) true false no_files =
  (Ok (PStr "Hello", "Tokens per Second: 3.00
Input Tokens: 5
Output Tokens: 2"),
   no_files,
   [Call_requests_post
      (api_request "You are a helpful assistant." "Hello?" "m"
         "http://127.0.0.1:1234" (py_float 7 10))]).
Proof.
  destruct (http_request_and_success
              (example_world false (Ok tt) (Ok tt) (Ok example_response))
              "You are a helpful assistant." "Hello?" "m"
              "http://127.0.0.1:1234" (py_float 7 10) false no_files)
    as (_ & _ & _ & H).
  apply (H example_response); [reflexivity|simpl; lia|reflexivity].
Defined.

Lemma default_stats_text :
  default_stats = "Tokens per Second: 0.00
Input Tokens: 0
Output Tokens: 0".
Proof. reflexivity. Qed.

(** What the three [except] clauses return, by the class of the
    exception. *)
Lemma api_except_run sa e st :
  _get_response_api_except sa e st =
  (Ok (if is_ConnectionError e then
         PStr ("Connection error - is LM Studio running at " +:+ sa +:+ "?")
       else if is_Timeout e then
         PStr "Request timed out - try increasing timeout duration"
       else PStr ("Error: " +:+ exn_str e),
       default_stats), st, []).
Proof.
  unfold _get_response_api_except, ret.
  by destruct (is_ConnectionError e), (is_Timeout e).
Qed.

Lemma api_try_raises W sp um mi sa t th dbg st e st1 tr1 :
  _get_response_api_try W sp um mi sa t th st = (Raise e, st1, tr1) ->
  _get_response_api W sp um mi sa t th dbg st =
  (Ok (if is_ConnectionError e then
         PStr ("Connection error - is LM Studio running at " +:+ sa +:+ "?")
       else if is_Timeout e then
         PStr "Request timed out - try increasing timeout duration"
       else PStr ("Error: " +:+ exn_str e),
       default_stats), st1, tr1).
Proof.
  intros H. unfold _get_response_api, try_except.
  rewrite H, api_except_run. by rewrite app_nil_r.
Qed.

(** C7.  On the HTTP path, an exception of [requests.post] that is a
    [requests.ConnectionError] (connection refused or server unreachable,
    a connect timeout included) gives a text that names the server address
    and asks whether LM Studio is running there; a timeout of the request
    gives the text that the request timed out; any other exception raised
    in the [try] block gives ["Error: "] followed by its message, in
    particular a 4xx or 5xx status, a body that is not JSON and a missing
    key.  The stats text is the default one in each case. *)
Theorem http_failures :
  forall (W : World) (system_prompt user_message model_id server_address : string)
         (temperature : spec_float) (thinking_tokens debug : bool) (st : State),
    let req := api_request system_prompt user_message model_id server_address
                 temperature in
    let run := _get_response_api W system_prompt user_message model_id
                 server_address temperature thinking_tokens debug st in
    (forall e,
        requests_post W req = Raise e -> is_ConnectionError e = true ->
        run = (Ok (PStr ("Connection error - is LM Studio running at "
                         +:+ server_address +:+ "?"), default_stats),
               st, [Call_requests_post req])) /\
    (forall e,
        requests_post W req = Raise e ->
        exn_cls e = RequestsTimeout \/ exn_cls e = RequestsReadTimeout ->
        run = (Ok (PStr "Request timed out - try increasing timeout duration",
                   default_stats),
               st, [Call_requests_post req])) /\
    (forall e st1 tr1,
        _get_response_api_try W system_prompt user_message model_id
          server_address temperature thinking_tokens st = (Raise e, st1, tr1) ->
        is_ConnectionError e = false -> is_Timeout e = false ->
        run = (Ok (PStr ("Error: " +:+ exn_str e), default_stats), st1, tr1)) /\
    (forall resp,
        requests_post W req = Ok resp -> 400 <= status_code resp < 600 ->
        exists msg,
          raise_for_status resp =
            Raise {| exn_cls := RequestsHTTPError; exn_str := msg |} /\
          run = (Ok (PStr ("Error: " +:+ msg), default_stats),
                 st, [Call_requests_post req])) /\
    (forall resp msg,
        requests_post W req = Ok resp -> raise_for_status resp = Ok tt ->
        json resp = Raise {| exn_cls := JSONDecodeError; exn_str := msg |} ->
        run = (Ok (PStr ("Error: " +:+ msg), default_stats),
               st, [Call_requests_post req])) /\
    (forall resp d,
        requests_post W req = Ok resp -> raise_for_status resp = Ok tt ->
        json resp = Ok (PDict d) -> dict_lookup d "choices" = None ->
        run = (Ok (PStr "Error: 'choices'", default_stats),
               st, [Call_requests_post req])) /\
    default_stats = "Tokens per Second: 0.00
Input Tokens: 0
Output Tokens: 0".
Proof.
  intros W sp um mi sa t th dbg st req run. subst run.
  repeat split.
  - intros e Hp Hc.
    rewrite (api_try_raises W sp um mi sa t th dbg st e st
               [Call_requests_post req]).
    + by rewrite Hc.
    + unfold _get_response_api_try. unfold_monad. fold req. by rewrite Hp.
  - intros e Hp Hc.
    rewrite (api_try_raises W sp um mi sa t th dbg st e st
               [Call_requests_post req]).
    + unfold is_ConnectionError, is_Timeout. by destruct Hc as [-> | ->].
    + unfold _get_response_api_try. unfold_monad. fold req. by rewrite Hp.
  - intros e st1 tr1 H Hc Ht.
    rewrite (api_try_raises W sp um mi sa t th dbg st e st1 tr1 H).
    by rewrite Hc, Ht.
  - intros resp Hp Hs.
    assert (exists msg, raise_for_status resp =
              Raise {| exn_cls := RequestsHTTPError; exn_str := msg |})
      as [msg Hm].
    { unfold raise_for_status.
      destruct (400 <=? status_code resp) eqn:A,
               (status_code resp <? 500) eqn:B,
               (500 <=? status_code resp) eqn:C,
               (status_code resp <? 600) eqn:D;
        simpl; eauto;
        rewrite ?Z.leb_le, ?Z.leb_gt, ?Z.ltb_lt, ?Z.ltb_ge in *; lia. }
    exists msg. split; [done|].
    rewrite (api_try_raises W sp um mi sa t th dbg st
               {| exn_cls := RequestsHTTPError; exn_str := msg |} st
               [Call_requests_post req]); [done|].
    unfold _get_response_api_try. unfold_monad. fold req.
    by rewrite Hp, Hm.
  - intros resp msg Hp Hs Hj.
    rewrite (api_try_raises W sp um mi sa t th dbg st
               {| exn_cls := JSONDecodeError; exn_str := msg |} st
               [Call_requests_post req]); [done|].
    unfold _get_response_api_try. unfold_monad. fold req.
    by rewrite Hp, Hs, Hj.
  - intros resp d Hp Hs Hj Hc.
    rewrite (api_try_raises W sp um mi sa t th dbg st
               {| exn_cls := KeyError; exn_str := "'choices'" |} st
               [Call_requests_post req]); [done|].
    unfold _get_response_api_try. unfold_monad. fold req.
    rewrite Hp, Hs, Hj. simpl. by rewrite Hc.
Qed.

Lemma http_failures_witness :
  _get_response_api
    (example_world false (Ok tt) (Ok tt)
       (Raise {| exn_cls := RequestsConnectionError;
                 exn_str := "Connection refused" |}))
    "You are a helpful assistant." "Hello?" "m" "http://127.0.0.1:1234"
    (py_float 7 10) true false no_files =
  (Ok (PStr "Connection error - is LM Studio running at http://127.0.0.1:1234?",
       "Tokens per Second: 0.00
Input Tokens: 0
Output Tokens: 0"),
   no_files,
   [Call_requests_post
      (api_request "You are a helpful assistant." "Hello?" "m"
         "http://127.0.0.1:1234" (py_float 7 10))]).
Proof.
  destruct (http_failures
              (example_world false (Ok tt) (Ok tt)
                 (Raise {| exn_cls := RequestsConnectionError;
                           exn_str := "Connection refused" |}))
              "You are a helpful assistant." "Hello?" "m"
              "http://127.0.0.1:1234" (py_float 7 10) true false no_files)
    as (H & _).
  apply (H {| exn_cls := RequestsConnectionError;
              exn_str := "Connection refused" |}); reflexivity.
Defined.

(** ** A small logic of runs *)

Lemma bind_run {A B} (c : M A) (k : A -> M B) st :
  bind c k st =
  match c st with
  | (Ok a, st', tr) => ((k a st').1.1, (k a st').1.2, tr ++ (k a st').2)
  | (Raise e, st', tr) => (Raise e, st', tr)
  end.
Proof.
  unfold bind. destruct (c st) as [[[a|e] st'] tr]; [|done].
  by destruct (k a st') as [[? ?] ?].
Qed.

Lemma try_except_run {A} (b : M A) (h : exn -> M A) st :
  try_except b h st =
  match b st with
  | (Ok a, st', tr) => (Ok a, st', tr)
  | (Raise e, st', tr) => ((h e st').1.1, (h e st').1.2, tr ++ (h e st').2)
  end.
Proof.
  unfold try_except. destruct (b st) as [[[a|e] st'] tr]; [done|].
  by destruct (h e st') as [[? ?] ?].
Qed.

Lemma finally_run {A} (b : M A) (c : M unit) st :
  finally b c st =
  (match (c (b st).1.2).1.1 with
   | Ok _ => (b st).1.1
   | Raise e => Raise e
   end,
   (c (b st).1.2).1.2, (b st).2 ++ (c (b st).1.2).2).
Proof.
  unfold finally. destruct (b st) as [[r st'] tr]. simpl.
  by destruct (c st') as [[[u|e] st''] tr'].
Qed.

Section Logic.
Context {A B : Type}.
Implicit Types (c : M A) (k : A -> M B) (Q : event -> Prop).

Lemma emits_ret Q (a : A) : emits Q (ret a).
Proof. intros st. constructor. Qed.

Lemma emits_lift Q (o : outcome A) : emits Q (lift o).
Proof. intros st. constructor. Qed.

Lemma emits_call Q ev (o : outcome A) : Q ev -> emits Q (call ev o).
Proof. intros H st. unfold call. unfold_monad. simpl. by repeat constructor. Qed.

Lemma emits_bind Q c k :
  emits Q c -> (forall a, emits Q (k a)) -> emits Q (bind c k).
Proof.
  intros Hc Hk st. rewrite bind_run. specialize (Hc st).
  destruct (c st) as [[[a|e] st'] tr]; [|done]. simpl in *.
  apply Forall_app. split; [done|]. apply Hk.
Qed.

Lemma emits_try_except Q c (h : exn -> M A) :
  emits Q c -> (forall e, emits Q (h e)) -> emits Q (try_except c h).
Proof.
  intros Hc Hh st. rewrite try_except_run. specialize (Hc st).
  destruct (c st) as [[[a|e] st'] tr]; [done|]. simpl in *.
  apply Forall_app. split; [done|]. apply Hh.
Qed.

Lemma emits_finally Q c (f : M unit) :
  emits Q c -> emits Q f -> emits Q (finally c f).
Proof.
  intros Hc Hf st. rewrite finally_run. simpl.
  apply Forall_app. split; [apply Hc|apply Hf].
Qed.

Lemma returns_ret (P : A -> Prop) a : P a -> returns P (ret a).
Proof. intros H st a' [= <-]. done. Qed.

Lemma returns_bind (P : B -> Prop) c k :
  (forall a, returns P (k a)) -> returns P (bind c k).
Proof.
  intros Hk st b. rewrite bind_run.
  destruct (c st) as [[[a|e] st'] tr]; [|done]. simpl. apply Hk.
Qed.

Lemma returns_bind_call (P : B -> Prop) ev (o : outcome A) k :
  (forall a, o = Ok a -> returns P (k a)) -> returns P (bind (call ev o) k).
Proof.
  intros Hk st b. rewrite bind_run. unfold call. unfold_monad.
  destruct o as [a|e]; [|done]. simpl. by apply Hk.
Qed.

Lemma returns_bind_lift (P : B -> Prop) (o : outcome A) k :
  (forall a, o = Ok a -> returns P (k a)) -> returns P (bind (lift o) k).
Proof.
  intros Hk st b. rewrite bind_run. unfold lift.
  destruct o as [a|e]; [|done]. simpl. by apply Hk.
Qed.

Lemma returns_try_except (P : A -> Prop) c (h : exn -> M A) :
  returns P c -> (forall e, returns P (h e)) -> returns P (try_except c h).
Proof.
  intros Hc Hh st a. rewrite try_except_run. specialize (Hc st).
  destruct (c st) as [[[a'|e] st'] tr]; simpl in *; [apply Hc|apply Hh].
Qed.

Lemma returns_finally (P : A -> Prop) c (f : M unit) :
  returns P c -> returns P (finally c f).
Proof.
  intros Hc st a. rewrite finally_run. simpl.
  destruct ((f (c st).1.2).1.1); [apply Hc|done].
Qed.

Lemma raises_bind (P : exn -> Prop) c k :
  raises P c -> (forall a, raises P (k a)) -> raises P (bind c k).
Proof.
  intros Hc Hk st e. rewrite bind_run. specialize (Hc st).
  destruct (c st) as [[[a|e'] st'] tr]; simpl in *; [apply Hk|].
  intros [= <-]. by apply Hc.
Qed.

Lemma raises_try_except (P : exn -> Prop) c (h : exn -> M A) :
  (forall e, raises P (h e)) -> raises P (try_except c h).
Proof.
  intros Hh st e. rewrite try_except_run.
  destruct (c st) as [[[a|e'] st'] tr]; simpl; [done|apply Hh].
Qed.

Lemma raises_finally (P : exn -> Prop) c (f : M unit) :
  raises P c -> raises P f -> raises P (finally c f).
Proof.
  intros Hc Hf st e. rewrite finally_run. simpl.
  destruct ((f (c st).1.2).1.1) eqn:E; [apply Hc|].
  intros [= <-]. by apply (Hf _ _ E).
Qed.

Lemma total_try_except c (h : exn -> M A) :
  (forall e, total (h e)) -> total (try_except c h).
Proof.
  intros Hh st. rewrite try_except_run.
  destruct (c st) as [[[a|e] st'] tr]; simpl; [by eauto|apply Hh].
Qed.
End Logic.

Lemma emits_when Q b (c : M unit) : emits Q c -> emits Q (when b c).
Proof. intros H. destruct b; [done|apply emits_ret]. Qed.

Lemma print_run W line st :
  print W line st = (stdout_write W line, st, [Print line]).
Proof. reflexivity. Qed.

Lemma emits_print Q W line : Q (Print line) -> emits Q (print W line).
Proof. intros H st. by repeat constructor. Qed.

Lemma emits_emit Q ev : Q ev -> emits Q (emit ev).
Proof. intros H st. by repeat constructor. Qed.

Lemma emits_state_op {A} Q (f : State -> A * State) :
  emits Q (fun st => (Ok (f st).1, (f st).2, [])).
Proof. intros st. constructor. Qed.

Lemma raises_ret {A} (P : exn -> Prop) (a : A) : raises P (ret a).
Proof. by intros st e. Qed.

Lemma raises_emit (P : exn -> Prop) ev : raises P (emit ev).
Proof. by intros st e. Qed.

Lemma raises_when (P : exn -> Prop) b (c : M unit) :
  raises P c -> raises P (when b c).
Proof. intros H. destruct b; [done|apply raises_ret]. Qed.

Lemma raises_print (P : exn -> Prop) W line :
  (forall e, stdout_write W line = Raise e -> P e) -> raises P (print W line).
Proof. intros H st e. rewrite print_run. apply H. Qed.

(** A sequence of prints raises nothing but the failure of a print. *)
Ltac raises_prints :=
  lazymatch goal with
  | |- raises _ (bind _ _) =>
      apply raises_bind; [raises_prints | intros ?; raises_prints]
  | |- raises _ (print _ _) =>
      apply raises_print; intros ? ?;
      first [eexists; eassumption | right; eexists; eassumption]
  | |- raises _ (ret _) => apply raises_ret
  | |- raises _ (when _ _) => apply raises_when; raises_prints
  | |- raises _ (match ?x with Some _ => _ | None => _ end) =>
      destruct x; raises_prints
  end.

(** Goals [emits Q c] are solved along the syntax of [c]; [leaf] proves
    [Q ev] for the events that [c] emits. *)
Ltac emits_go leaf :=
  lazymatch goal with
  | |- emits _ (bind _ _) =>
      apply emits_bind; [emits_go leaf | intros ?; emits_go leaf]
  | |- emits _ (ret _) => apply emits_ret
  | |- emits _ (lift _) => apply emits_lift
  | |- emits _ (call _ _) => apply emits_call; leaf
  | |- emits _ (print _ _) => apply emits_print; leaf
  | |- emits _ (emit _) => apply emits_emit; leaf
  | |- emits _ (when _ _) => apply emits_when; emits_go leaf
  | |- emits _ (try_except _ _) =>
      apply emits_try_except; [emits_go leaf | intros ?; emits_go leaf]
  | |- emits _ (finally _ _) =>
      apply emits_finally; [emits_go leaf | emits_go leaf]
  | |- emits _ (set_temp_path _) => intros ?; constructor
  | |- emits _ get_temp_path => intros ?; constructor
  | |- emits _ (create_file _) => intros ?; constructor
  | |- emits _ (remove_file _) => intros ?; constructor
  | |- emits _ (os_path_exists _) => intros ?; constructor
  | |- emits _ (if ?b then _ else _) => destruct b; emits_go leaf
  | |- emits _ (match ?x with Some _ => _ | None => _ end) =>
      destruct x; emits_go leaf
  | |- emits _ (unlink _ _) => unfold unlink; emits_go leaf
  | |- emits _ (chat_add _ _ _ _) => unfold chat_add; emits_go leaf
  | |- emits _ (_prepare_image _ _ _) => unfold _prepare_image; emits_go leaf
  | |- emits _ (debug_header _ _ _ _ _) => unfold debug_header; emits_go leaf
  | |- emits _ (_get_response_sdk_try _ _ _ _ _ _ _ _ _) =>
      unfold _get_response_sdk_try; emits_go leaf
  | |- emits _ (_get_response_sdk_finally _ _) =>
      unfold _get_response_sdk_finally; emits_go leaf
  | |- emits _ (_get_response_sdk _ _ _ _ _ _ _ _ _) =>
      unfold _get_response_sdk; emits_go leaf
  | |- emits _ (_get_response_api_try _ _ _ _ _ _ _) =>
      unfold _get_response_api_try; emits_go leaf
  | |- emits _ (_get_response_api_except _ _) =>
      unfold _get_response_api_except; emits_go leaf
  | |- emits _ (_get_response_api _ _ _ _ _ _ _ _) =>
      unfold _get_response_api; emits_go leaf
  end.


(** ** Routing *)

Lemma calls_prints prints tr :
  forallb is_print prints = true -> calls (prints ++ tr) = calls tr.
Proof.
  unfold calls. induction prints as [|ev prints IH]; [done|]. simpl.
  intros H. apply andb_prop in H as [E H]. rewrite filter_cons.
  rewrite decide_False by (rewrite E; done). by apply IH.
Qed.



(** The debug header prints and does nothing else; it returns when its
    prints succeed. *)
Lemma debug_header_run W mi us im dbg st :
  (dbg = true -> prints_ok W) ->
  exists prints,
    debug_header W mi us im dbg st = (Ok tt, st, prints) /\
    forallb is_print prints = true.
Proof.
  intros G. unfold debug_header.
  destruct dbg; [specialize (G eq_refl); unfold prints_ok in G|clear G];
    destruct im; unfold_monad; rewrite ?G; simpl; eauto.
Qed.

Lemma debug_header_state W mi us im dbg st :
  (debug_header W mi us im dbg st).1.2 = st.
Proof. unfold debug_header. destruct dbg, im; run; reflexivity. Qed.



Lemma call_run {A} ev (o : outcome A) st : call ev o st = (o, st, [ev]).
Proof. reflexivity. Qed.





Lemma get_response_sdk_run W sp um mi sa t mt th us im dbg st :
  (dbg = true -> prints_ok W) ->
  HAS_SDK W && us = true ->
  exists prints,
    forallb is_print prints = true /\
    let sdk := _get_response_sdk W sp
                 (if negb th then _clean_thinking_tokens um else um)
                 mi t mt th im dbg st in
    get_response W sp um mi sa t mt th us im dbg st =
    (sdk.1.1, sdk.1.2, prints ++ sdk.2).
Proof.
  intros G H. unfold get_response. rewrite H, bind_run.
  destruct (debug_header_run W mi us im dbg st G) as (prints & -> & P).
  by exists prints.
Qed.




Ltac unfold_sdk :=
  unfold _get_response_sdk, _get_response_sdk_try, _get_response_sdk_finally,
    _prepare_image, chat_add, unlink, lms_attr, truthy.






(** ** The temporary image file *)

Lemma creates_temp_file_false tr :
  Forall not_temp_file_event tr -> creates_temp_file tr = false.
Proof.
  unfold creates_temp_file. induction 1 as [|ev tr H _ IH]; [done|].
  simpl. rewrite IH. by destruct ev.
Qed.

(** Without an image the SDK path creates no temporary file. *)
Lemma sdk_no_image_no_temp_file W sp um mi t mt th dbg :
  emits not_temp_file_event (_get_response_sdk W sp um mi t mt th None dbg).
Proof. emits_go ltac:(exact I). Qed.

(** A temporary image file is created only on the SDK path and only when
    an image is supplied. *)
Lemma no_image_no_temp_file W sp um mi sa t mt th us dbg :
  emits not_temp_file_event (get_response W sp um mi sa t mt th us None dbg).
Proof.
  unfold get_response. cbv zeta.
  apply emits_bind; [emits_go ltac:(exact I)|]. intros _.
  destruct (HAS_SDK W && us); [apply sdk_no_image_no_temp_file|].
  emits_go ltac:(exact I).
Qed.

Lemma http_no_temp_file W sp um mi sa t mt th us im dbg :
  HAS_SDK W && us = false ->
  emits not_temp_file_event (get_response W sp um mi sa t mt th us im dbg).
Proof.
  intros R. unfold get_response. cbv zeta. rewrite R.
  emits_go ltac:(exact I).
Qed.

Lemma temp_file_only_for_sdk_image W sp um mi sa t mt th us im dbg st :
  creates_temp_file
    (get_response W sp um mi sa t mt th us im dbg st).2 = true ->
  is_Some im /\ HAS_SDK W && us = true.
Proof.
  destruct (HAS_SDK W && us) eqn:R.
  - destruct im as [img|]; [by eauto|]. intros H. exfalso.
    rewrite creates_temp_file_false in H; [done|].
    apply no_image_no_temp_file.
  - intros H. exfalso.
    rewrite creates_temp_file_false in H; [done|].
    by apply http_no_temp_file.
Qed.


(** C3.  The claim fails on the code: when [pil_image.save] raises after
    [NamedTemporaryFile] has created the file, [_prepare_image] returns
    [None], [temp_path] stays [None], the [finally] block deletes nothing
    and the file is still on disk when the call returns.  The other half of
    the claim holds: a temporary file is created only when an image is
    supplied and the SDK path is taken. *)
Theorem temp_file_left_behind :
  let run := get_response save_fails_world "You are a helpful assistant."
               "Describe the image" "m" "http://127.0.0.1:1234"
               (py_float 7 10) 1000 true true (Some rgba_image) false
               no_files in
  (("/tmp/tmpk3x9.jpg" ∉ files no_files) /\
   run.1.1 = Ok (PStr "Hi", "Tokens per Second: 12.35
Input Tokens: 10
Output Tokens: 20") /\
   creates_temp_file run.2 = true /\
   ("/tmp/tmpk3x9.jpg" ∈ files run.1.2) /\
   calls_unlink run.2 = false) /\
  (forall W sp um mi sa t mt th us im dbg st,
      creates_temp_file
        (get_response W sp um mi sa t mt th us im dbg st).2 = true ->
      is_Some im /\ HAS_SDK W && us = true).
Proof.
  split; [|intros; by eapply temp_file_only_for_sdk_image].
  split; [set_solver|]. split; [vm_compute; reflexivity|].
  split; [vm_compute; reflexivity|]. split.
  - apply (bool_decide_unpack _). vm_compute. exact I.
  - vm_compute. reflexivity.
Qed.

(** ** Thinking tokens on the way in and on the way out *)

Ltac returns_go leaf :=
  lazymatch goal with
  | |- returns _ (bind (call _ _) _) =>
      apply returns_bind_call; intros ? ?; returns_go leaf
  | |- returns _ (bind (lift _) _) =>
      apply returns_bind_lift; intros ? ?; returns_go leaf
  | |- returns _ (bind _ _) => apply returns_bind; intros ?; returns_go leaf
  | |- returns _ (ret _) => apply returns_ret; leaf
  | |- returns _ (try_except _ _) =>
      apply returns_try_except; [returns_go leaf | intros ?; returns_go leaf]
  | |- returns _ (finally _ _) => apply returns_finally; returns_go leaf
  | |- returns _ (if ?b then _ else _) => destruct b eqn:?; returns_go leaf
  | |- returns _ (let x := ?v in _) => cbv zeta; returns_go leaf
  end.

Lemma sdk_try_returns_filtered W sp um mi sa t mt im dbg :
  returns (fun r => is_filtered_completion W sp um mi sa t mt r.1)
    (_get_response_sdk_try W sp um mi t mt false im dbg).
Proof.
  unfold _get_response_sdk_try.
  returns_go ltac:(left; simpl; by eauto).
Qed.

Lemma completion_of_steps body choices choice message output :
  getitem_str body "choices" = Ok choices ->
  getitem_0 choices = Ok choice ->
  getitem_str choice "message" = Ok message ->
  getitem_str message "content" = Ok output ->
  completion_of body = Ok output.
Proof. intros H1 H2 H3 H4. unfold completion_of. by rewrite H1, H2, H3. Qed.

Lemma clean_value_Ok v v' :
  clean_value v = Ok v' ->
  exists c, v = PStr c /\ v' = PStr (_clean_thinking_tokens c).
Proof. destruct v; try done. intros [= <-]. by eauto. Qed.

Lemma api_try_returns_filtered W sp um mi sa t mt :
  returns (fun r => is_filtered_completion W sp um mi sa t mt r.1)
    (_get_response_api_try W sp um mi sa t false).
Proof.
  unfold _get_response_api_try. cbv zeta. simpl negb. cbv iota.
  returns_go ltac:(idtac).
  match goal with H : clean_value _ = Ok _ |- _ =>
    apply clean_value_Ok in H as (c & -> & ->) end.
  right. eexists _, _, c. split; [eassumption|]. split; [eassumption|].
  split; [|done]. by eapply completion_of_steps.
Qed.

(** With [thinking_tokens = False], what [get_response] returns is an
    error text or the filter's output on the completion text. *)
Lemma get_response_returns_filtered W sp um mi sa t mt us im dbg :
  returns (fun r =>
             is_error_text sa r.1 \/
             is_filtered_completion W sp (_clean_thinking_tokens um) mi sa t
               mt r.1)
    (get_response W sp um mi sa t mt false us im dbg).
Proof.
  unfold get_response. cbv zeta. simpl negb. cbv iota.
  apply returns_bind. intros _. destruct (HAS_SDK W && us).
  - unfold _get_response_sdk. apply returns_bind. intros _.
    apply returns_finally, returns_try_except.
    + intros st r Hr. right.
      by apply (sdk_try_returns_filtered W sp _ mi sa t mt im dbg st r).
    + intros e. apply returns_bind. intros _. apply returns_ret.
      left. left. by exists e.
  - apply returns_bind. intros _. unfold _get_response_api.
    apply returns_try_except.
    + intros st r Hr. right.
      by apply (api_try_returns_filtered W sp _ mi sa t mt st r).
    + intros e st r. rewrite api_except_run. intros [= <-]. left. right.
      simpl. destruct (is_ConnectionError e); [by left|].
      destruct (is_Timeout e); [by right; left|]. right. right. by exists e.
Qed.

Ltac hands_over_leaf :=
  unfold hands_over; simpl; intros ? ?; by simplify_eq.

Lemma sdk_hands_over W sp um mi t mt th im dbg :
  emits (hands_over um) (_get_response_sdk W sp um mi t mt th im dbg).
Proof. emits_go hands_over_leaf. Qed.

Lemma api_hands_over W sp um mi sa t th dbg :
  emits (hands_over um) (_get_response_api W sp um mi sa t th dbg).
Proof. emits_go hands_over_leaf. Qed.

Lemma sent_user_messages_Forall message tr :
  Forall (hands_over message) tr ->
  Forall (fun m => m = message) (sent_user_messages tr).
Proof.
  unfold sent_user_messages. induction 1 as [|ev tr H _ IH]; [constructor|].
  simpl. destruct (user_message_of ev) as [m|] eqn:E; [|done].
  constructor; [by apply H|done].
Qed.

(** Every user message that [get_response] hands to a transport is the
    supplied message, filtered when [thinking_tokens] is false. *)
Lemma get_response_hands_over W sp um mi sa t mt th us im dbg st :
  Forall (fun m => m = if negb th then _clean_thinking_tokens um else um)
    (sent_user_messages (get_response W sp um mi sa t mt th us im dbg st).2).
Proof.
  apply sent_user_messages_Forall. revert st.
  change (emits (hands_over (if negb th then _clean_thinking_tokens um else um))
            (get_response W sp um mi sa t mt th us im dbg)).
  unfold get_response. cbv zeta.
  apply emits_bind; [emits_go hands_over_leaf|]. intros _.
  destruct (HAS_SDK W && us).
  - apply sdk_hands_over.
  - apply emits_bind; [|intros _; apply api_hands_over].
    apply emits_when, emits_print. hands_over_leaf.
Qed.

(** What one pass of the filter guarantees: the output is the text left
    by removing the spans of the decomposition, trimmed; it holds no span
    when that text holds none. *)
Lemma clean_thinking_tokens_Spans c r :
  Spans (chars c) r ->
  _clean_thinking_tokens c = str_of (strip r) /\
  (has_span r = false -> has_span (chars (_clean_thinking_tokens c)) = false).
Proof.
  intros H. unfold _clean_thinking_tokens. rewrite (Spans_sub _ _ H).
  split; [done|]. intros Hr. rewrite chars_str_of. by apply strip_no_span.
Qed.

(** Counterexample to C5 as stated, with [thinking_tokens] false: the
    message ["<thi<think>x</think>nk>y</think>"] is handed to the HTTP
    transport as ["<think>y</think>"], which is a span; and when the server
    at ["http://127.0.0.1:1/<think>x</think>"] refuses the connection, the
    response text names that address, span included. *)
Lemma no_span_after_filter_counterexample :
  (sent_user_messages
     (get_response http_world "You are a helpful assistant."
        "<thi<think>x</think>nk>y</think>" "m" "http://127.0.0.1:1234"
        (py_float 7 10) 1000 false true None false no_files).2
   = ["<think>y</think>"] /\
   has_span (chars "<think>y</think>") = true) /\
  ((get_response refused_world "You are a helpful assistant." "Hello?" "m"
      "http://127.0.0.1:1/<think>x</think>" (py_float 7 10) 1000 false true
      None false no_files).1.1
   = Ok (PStr "Connection error - is LM Studio running at http://127.0.0.1:1/<think>x</think>?",
         default_stats) /\
   response_has_span
     (PStr "Connection error - is LM Studio running at http://127.0.0.1:1/<think>x</think>?")
   = true).
Proof. repeat split; vm_compute; reflexivity. Qed.

(** C5, amended.  With [thinking_tokens = False], every user message
    handed to a transport is the filter's output on the supplied message,
    and what [get_response] returns is an error text or the filter's
    output on the completion text.  The filter's output is the text left
    after the spans of the input are removed in one pass, trimmed; it
    holds no span whenever that text holds none. *)
Theorem thinking_tokens_filtered_once :
  forall (W : World) (system_prompt user_message model_id server_address : string)
         (temperature : spec_float) (max_tokens : Z) (use_sdk : bool)
         (image : option ndarray) (debug : bool) (st : State),
    let run := get_response W system_prompt user_message model_id
                 server_address temperature max_tokens false use_sdk image
                 debug st in
    Forall (fun m => m = _clean_thinking_tokens user_message)
      (sent_user_messages run.2) /\
    (forall v s,
        run.1.1 = Ok (v, s) ->
        is_error_text server_address v \/
        is_filtered_completion W system_prompt
          (_clean_thinking_tokens user_message) model_id server_address
          temperature max_tokens v) /\
    (forall c : string,
        (exists r, Spans (chars c) r) /\
        (forall r,
            Spans (chars c) r ->
            _clean_thinking_tokens c = str_of (strip r) /\
            (has_span r = false ->
             has_span (chars (_clean_thinking_tokens c)) = false))).
Proof.
  intros W sp um mi sa t mt us im dbg st run. split; [|split].
  - apply (get_response_hands_over W sp um mi sa t mt false us im dbg st).
  - intros v s H.
    apply (get_response_returns_filtered W sp um mi sa t mt us im dbg st (v, s) H).
  - intros c. split; [apply Spans_total|apply clean_thinking_tokens_Spans].
Qed.

Lemma thinking_tokens_filtered_once_witness :
  _clean_thinking_tokens "a<think>x</think> " = "a" /\
  has_span (chars (_clean_thinking_tokens "a<think>x</think> ")) = false.
Proof.
  destruct (thinking_tokens_filtered_once http_world
              "You are a helpful assistant." "a<think>x</think> " "m"
              "http://127.0.0.1:1234" (py_float 7 10) 1000 true None false
              no_files) as (_ & _ & H).
  destruct (H "a<think>x</think> ") as [_ H'].
  destruct (H' (chars "a ")) as [H1 H2].
  - apply (Spans_cut (chars "a") (chars "x") (chars " ") (chars " "));
      [reflexivity|reflexivity|].
    apply Spans_none. reflexivity.
  - split; [rewrite H1; reflexivity|apply H2; reflexivity].
Defined.

(** C4.  Every text is a sequence of pieces and well-formed spans
    [t0 <think> b1 </think> t1 ... <think> bn </think> tn], where a span
    runs from an opening tag to the first closing tag after it, over
    newlines too.  The filter returns the pieces [t0 t1 ... tn] without the
    spans and their tags, trimmed of leading and trailing whitespace; a
    text without a span is returned trimmed and otherwise unchanged. *)
Theorem clean_thinking_tokens_removes_spans :
  forall text : string,
    (exists r, Spans (chars text) r) /\
    (forall r,
        Spans (chars text) r ->
        _clean_thinking_tokens text = str_of (strip r) /\
        Trimmed r (strip r)) /\
    (has_span (chars text) = false ->
     _clean_thinking_tokens text = str_of (strip (chars text)) /\
     Trimmed (chars text) (strip (chars text))).
Proof.
  intros text. split; [apply Spans_total|]. split.
  - intros r H. split; [|apply strip_Trimmed].
    unfold _clean_thinking_tokens. by rewrite (Spans_sub _ _ H).
  - intros H. split; [|apply strip_Trimmed].
    unfold _clean_thinking_tokens, re_sub_think. by rewrite sub_no_span.
Qed.

Lemma clean_thinking_tokens_removes_spans_witness :
  _clean_thinking_tokens "  <think>a
b</think> hello <think></think>world  " = "hello world" /\
  _clean_thinking_tokens " no tags here " = "no tags here".
Proof.
  destruct (clean_thinking_tokens_removes_spans "  <think>a
b</think> hello <think></think>world  ") as (_ & H & _).
  destruct (clean_thinking_tokens_removes_spans " no tags here ")
    as (_ & _ & H').
  split.
  - destruct (H (chars "   hello world  ")) as [-> _]; [|reflexivity].
    apply (Spans_cut (chars "  ") (chars "a
b") (chars " hello <think></think>world  ") (chars " hello world  "));
      [reflexivity|reflexivity|].
    apply (Spans_cut (chars " hello ") [] (chars "world  ") (chars "world  "));
      [reflexivity|reflexivity|].
    apply Spans_none. reflexivity.
  - destruct H' as [-> _]; reflexivity.
Defined.

(** ** The debug flag *)

(** On the HTTP path, when the debug prints succeed, the debug flag
    changes what is printed and nothing else. *)
Lemma debug_unused_on_http_path W sp um mi sa t mt th us im st :
  prints_ok W ->
  HAS_SDK W && us = false ->
  (get_response W sp um mi sa t mt th us im true st).1 =
  (get_response W sp um mi sa t mt th us im false st).1.
Proof.
  intros G R.
  destruct (get_response_http_run W sp um mi sa t mt th us im true st
              (fun _ => G) R)
    as (v & prints & -> & Ev & _).
  destruct (get_response_http_run W sp um mi sa t mt th us im false st
              (fun _ => G) R)
    as (v' & prints' & -> & Ev' & _).
  unfold _get_response_api in Ev, Ev'. simpl. congruence.
Qed.

(** C10.  The claim fails on the code: with [debug] on, the SDK path reads
    [result.stats.generation_time_sec] for a debug line; when the stats
    object has no such attribute the read raises, and the call returns the
    error pair, while the same call with [debug] off returns the response
    and its statistics. *)
Theorem debug_changes_result :
  let run debug :=
    get_response sdk_world "You are a helpful assistant." "Hello?" "m"
      "http://127.0.0.1:1234" (py_float 7 10) 1000 true true None debug
      no_files in
  generation_time_sec (stats example_result) = None /\
  (run false).1.1 = Ok (PStr "Hi", "Tokens per Second: 12.35
Input Tokens: 10
Output Tokens: 20") /\
  (run true).1.1 =
  Ok (PStr "Error processing with LM Studio SDK: 'LlmPredictionStats' object has no attribute 'generation_time_sec'",
      "Tokens per Second: 0.00
Input Tokens: 0
Output Tokens: 0").
Proof. repeat split; vm_compute; reflexivity. Qed.

(** ** Exceptions *)

(** The [finally] block raises only what [os.unlink] raises on a file that
    exists, or what its debug print raises. *)
Lemma sdk_finally_raises W dbg :
  raises (fun e => unlink_failure W e \/ print_failure W e)
    (_get_response_sdk_finally W dbg).
Proof.
  intros st e. unfold _get_response_sdk_finally, unlink, unlink_failure,
    print_failure.
  unfold_monad. repeat (case_step; simpl); intros [= <-];
    try discriminate; by eauto.
Qed.

Lemma debug_header_raises W mi us im dbg :
  raises (fun e => unlink_failure W e \/ print_failure W e)
    (debug_header W mi us im dbg).
Proof. unfold debug_header, print_failure. raises_prints. Qed.

(** No exception leaves [get_response] but a failure of [os.unlink] in
    the cleanup of the SDK path, or the failure of a [print]. *)
Lemma get_response_raises W sp um mi sa t mt th us im dbg :
  raises (fun e => unlink_failure W e \/ print_failure W e)
    (get_response W sp um mi sa t mt th us im dbg).
Proof.
  unfold get_response. cbv zeta.
  apply raises_bind; [apply debug_header_raises|]. intros _.
  destruct (HAS_SDK W && us).
  - unfold _get_response_sdk. apply raises_bind; [by intros st e|]. intros _.
    apply raises_finally; [|apply sdk_finally_raises].
    apply raises_try_except. intros e. unfold print_failure. raises_prints.
  - apply raises_bind; [unfold print_failure; raises_prints|]. intros _.
    unfold _get_response_api. apply raises_try_except.
    intros e st e'. by rewrite api_except_run.
Qed.

(** When the [try] block of the SDK path raises, and the prints and the
    cleanup work, the call returns the error text and the default
    statistics. *)
Lemma sdk_try_raises W sp um mi t mt th im dbg st e st1 tr1 :
  prints_ok W ->
  (forall p, os_unlink W p = Ok tt) ->
  _get_response_sdk_try W sp um mi t mt th im dbg
    {| files := files st; temp_path := None |} = (Raise e, st1, tr1) ->
  (_get_response_sdk W sp um mi t mt th im dbg st).1.1 =
  Ok (PStr ("Error processing with LM Studio SDK: " +:+ exn_str e),
      default_stats).
Proof.
  intros Hp Hu H. unfold _get_response_sdk. rewrite bind_run.
  change (set_temp_path None st)
    with (Ok tt, {| files := files st; temp_path := None |}, @nil event).
  cbn [fst snd app]. rewrite finally_run. cbn [fst snd].
  rewrite try_except_run, H. cbn [fst snd].
  rewrite bind_run, print_run, (Hp _). cbn [fst snd ret].
  set (c := _get_response_sdk_finally W dbg st1).
  destruct (c.1.1) as [u|e'] eqn:E; [done|].
  destruct (sdk_finally_raises W dbg st1 e' E) as [[p Hp']|[line Hl]].
  - rewrite Hu in Hp'. discriminate.
  - rewrite Hp in Hl. discriminate.
Qed.

(** Without an image nothing is deleted, and the SDK path returns when
    its prints succeed. *)
Lemma sdk_no_image_returns W sp um mi t mt th dbg st :
  prints_ok W ->
  exists v, (_get_response_sdk W sp um mi t mt th None dbg st).1.1 = Ok v.
Proof. intros Hp. unfold_sdk. run; eauto. Qed.

(** C1.  The claim fails on the code: an error of [os.unlink] in the
    [finally] block of the SDK path is not caught, and leaves
    [get_response] in place of the pair.  No exception leaves the call but
    such an error or the error of a [print].  When the prints succeed, the
    error of [os.unlink] is the only exception that does: it takes the SDK
    path and an image; when [os.unlink] works too the call returns a pair;
    and a failure inside the [try] block of the SDK path then gives
    ["Error processing with LM Studio SDK: "] followed by the message,
    with the default statistics. *)
Theorem unlink_failure_escapes :
  (get_response unlink_fails_world "You are a helpful assistant."
     "Describe the image" "m" "http://127.0.0.1:1234" (py_float 7 10) 1000
     true true (Some rgb_image) false no_files).1.1 =
  Raise {| exn_cls := OSError;
           exn_str := "[WinError 32] The process cannot access the file because it is being used by another process: '/tmp/tmpk3x9.jpg'" |} /\
  forall (W : World) (system_prompt user_message model_id server_address : string)
         (temperature : spec_float) (max_tokens : Z)
         (thinking_tokens use_sdk : bool) (image : option ndarray)
         (debug : bool) (st : State),
    let message := if negb thinking_tokens
                   then _clean_thinking_tokens user_message
                   else user_message in
    let run := get_response W system_prompt user_message model_id
                 server_address temperature max_tokens thinking_tokens
                 use_sdk image debug st in
    (forall e,
        run.1.1 = Raise e ->
        (exists p, os_unlink W p = Raise e) \/
        (exists line, stdout_write W line = Raise e)) /\
    (prints_ok W ->
     (forall e,
         run.1.1 = Raise e ->
         (exists p, os_unlink W p = Raise e) /\
         is_Some image /\ HAS_SDK W && use_sdk = true) /\
     ((forall p, os_unlink W p = Ok tt) -> exists v s, run.1.1 = Ok (v, s)) /\
     (HAS_SDK W && use_sdk = true ->
      (forall p, os_unlink W p = Ok tt) ->
      forall e st1 tr1,
        _get_response_sdk_try W system_prompt message model_id temperature
          max_tokens thinking_tokens image debug
          {| files := files st; temp_path := None |} = (Raise e, st1, tr1) ->
        run.1.1 =
        Ok (PStr ("Error processing with LM Studio SDK: " +:+ exn_str e),
            default_stats))).
Proof.
  split; [vm_compute; reflexivity|].
  intros W sp um mi sa t mt th us im dbg st message run.
  pose proof (get_response_raises W sp um mi sa t mt th us im dbg st) as Hr.
  fold run in Hr. split; [exact Hr|].
  intros Hp.
  assert (Hr' : forall e, run.1.1 = Raise e -> exists p, os_unlink W p = Raise e).
  { intros e He. destruct (Hr e He) as [H|[line Hl]]; [exact H|].
    rewrite Hp in Hl. discriminate. }
  split; [|split].
  - intros e He. split; [by apply Hr'|].
    destruct (HAS_SDK W && us) eqn:R.
    + split; [|done]. destruct im as [img|]; [by eauto|]. exfalso.
      destruct (get_response_sdk_run W sp um mi sa t mt th us None dbg st
                  (fun _ => Hp) R)
        as (prints & _ & E). cbn zeta in E. fold run in E.
      destruct (sdk_no_image_returns W sp message mi t mt th dbg st Hp)
        as [v Hv].
      rewrite E in He. cbn [fst] in He. fold message in He. congruence.
    + exfalso.
      destruct (get_response_http_run W sp um mi sa t mt th us im dbg st
                  (fun _ => Hp) R)
        as (v & prints & E & _). fold run in E. rewrite E in He. done.
  - intros Hu. destruct (run.1.1) as [[v s]|e] eqn:E; [by eauto|].
    destruct (Hr' e eq_refl) as [p Hp']. rewrite Hu in Hp'. discriminate.
  - intros R Hu e st1 tr1 H.
    destruct (get_response_sdk_run W sp um mi sa t mt th us im dbg st
                (fun _ => Hp) R)
      as (prints & _ & E). cbn zeta in E. fold run message in E.
    rewrite E. cbn [fst]. by eapply sdk_try_raises.
Qed.

Lemma unlink_failure_escapes_witness :
  exists v s,
    (get_response sdk_world "You are a helpful assistant."
       "Describe the image" "m" "http://127.0.0.1:1234" (py_float 7 10) 1000
       true true (Some rgb_image) false no_files).1.1 = Ok (v, s).
Proof.
  destruct unlink_failure_escapes as [_ H].
  destruct (H sdk_world "You are a helpful assistant." "Describe the image"
              "m" "http://127.0.0.1:1234" (py_float 7 10) 1000 true true
              (Some rgb_image) false no_files) as (_ & H').
  destruct (H' (fun line => eq_refl)) as (_ & H'' & _).
  apply H''. reflexivity.
Defined.

(* ===================================================================== *)
(** * Part III.  Further properties of the code                           *)
(* ===================================================================== *)

(** ** Image preparation *)

Lemma prepare_image_run W image debug st :
  (debug = true -> prints_ok W) ->
  exists r,
    (_prepare_image W image debug st).1.1 = Ok r /\
    (forall p,
        r = Some p <->
        Image_fromarray W image = Ok tt /\ NamedTemporaryFile W = Ok p /\
        Image_save W image p = Ok tt) /\
    (forall p, r = Some p -> p ∈ files (_prepare_image W image debug st).1.2).
Proof.
  intros G.
  assert (Hw : forall line, debug = true -> stdout_write W line = Ok tt)
    by (intros line E; by apply G).
  unfold _prepare_image. unfold_monad.
  destruct (Image_fromarray W image) as [[]|e1] eqn:E1; simpl.
  - destruct (NamedTemporaryFile W) as [p0|e2] eqn:E2; simpl.
    + destruct (Image_save W image p0) as [[]|e3] eqn:E3; simpl.
      * destruct debug; simpl; rewrite ?(Hw _ eq_refl); simpl;
          eexists; (split; [reflexivity|]); split.
        all: try (intros p; split; [by intros [= <-]|by intros (_ & [= <-] & _)]).
        all: intros p [= <-]; set_solver.
      * destruct debug; simpl; rewrite ?(Hw _ eq_refl); simpl;
          eexists; (split; [reflexivity|]); split.
        all: try (intros p; split; [done|intros (_ & [= <-] & ?); congruence]).
        all: done.
    + destruct debug; simpl; rewrite ?(Hw _ eq_refl); simpl;
        eexists; (split; [reflexivity|]); split.
      all: try (intros p; split; [done|by intros (_ & ? & _)]).
      all: done.
  - destruct debug; simpl; rewrite ?(Hw _ eq_refl); simpl;
      eexists; (split; [reflexivity|]); split.
    all: try (intros p; split; [done|by intros (? & _)]).
    all: done.
Qed.

(** When its debug prints succeed, or [debug] is off, [_prepare_image]
    never raises: it returns the path of the temporary file exactly when
    the conversion, the creation of the file and the saving all succeed,
    and the file is then on disk; in every other case it returns [None]. *)
Theorem prepare_image_never_raises :
  forall (W : World) (image : ndarray) (debug : bool) (st : State),
    (debug = true -> prints_ok W) ->
    let run := _prepare_image W image debug st in
    exists r,
      run.1.1 = Ok r /\
      (forall p,
          r = Some p <->
          Image_fromarray W image = Ok tt /\ NamedTemporaryFile W = Ok p /\
          Image_save W image p = Ok tt) /\
      (forall p, r = Some p -> p ∈ files run.1.2).
Proof. intros W image debug st G run. by apply prepare_image_run. Qed.

Lemma prepare_image_never_raises_witness :
  (_prepare_image save_fails_world rgba_image true no_files).1.1 = Ok None.
Proof.
  destruct (prepare_image_never_raises save_fails_world rgba_image true
              no_files (fun _ line => eq_refl)) as (r & Er & Hr & _).
  destruct r as [p|]; [|exact Er]. exfalso.
  destruct (proj1 (Hr p) eq_refl) as (_ & _ & Hs). discriminate Hs.
Defined.

(** [_prepare_image] deletes nothing and creates at most the file that
    [NamedTemporaryFile] names: when the conversion or the creation of the
    file fails, the files on disk are those of before. *)
Theorem prepare_image_files :
  forall (W : World) (image : ndarray) (debug : bool) (st : State),
    let run := _prepare_image W image debug st in
    files st ⊆ files run.1.2 /\
    (forall q, q ∈ files run.1.2 ->
               q ∈ files st \/ NamedTemporaryFile W = Ok q) /\
    ((forall u, Image_fromarray W image <> Ok u) \/
     (forall p, NamedTemporaryFile W <> Ok p) ->
     files run.1.2 = files st).
Proof.
  intros W image debug st run. subst run. unfold _prepare_image.
  unfold_monad.
  destruct (Image_fromarray W image) as [u|e1] eqn:E1; simpl.
  - destruct (NamedTemporaryFile W) as [p0|e2] eqn:E2; simpl.
    + repeat (case_step; simpl);
        (split; [set_solver|split; [set_solver|]]);
        (intros [H|H]; [by destruct (H u)|by destruct (H p0)]).
    + repeat (case_step; simpl); (split; [done|split; [by eauto|done]]).
  - repeat (case_step; simpl); (split; [done|split; [by eauto|done]]).
Qed.

(** ** Messages and responses with thinking tokens kept *)

Lemma sent_user_messages_prints prints tr :
  forallb is_print prints = true ->
  sent_user_messages (prints ++ tr) = sent_user_messages tr.
Proof.
  unfold sent_user_messages. induction prints as [|ev prints IH]; [done|].
  simpl. intros H. apply andb_prop in H as [E H]. rewrite <- (IH H).
  by destruct ev.
Qed.

(** With [thinking_tokens = True] the user message reaches the transport
    as supplied: every message handed over is the supplied one, and the
    HTTP path, when its debug prints succeed or [debug] is off, hands over
    exactly that one. *)
Theorem message_verbatim_with_thinking_tokens :
  forall (W : World) (system_prompt user_message model_id server_address : string)
         (temperature : spec_float) (max_tokens : Z) (use_sdk : bool)
         (image : option ndarray) (debug : bool) (st : State),
    let run := get_response W system_prompt user_message model_id
                 server_address temperature max_tokens true use_sdk image
                 debug st in
    Forall (fun m => m = user_message) (sent_user_messages run.2) /\
    (HAS_SDK W && use_sdk = false -> (debug = true -> prints_ok W) ->
     sent_user_messages run.2 = [user_message]).
Proof.
  intros W sp um mi sa t mt us im dbg st run. split.
  - apply (get_response_hands_over W sp um mi sa t mt true us im dbg st).
  - intros R G.
    destruct (get_response_http_run W sp um mi sa t mt true us im dbg st G R)
      as (v & prints & E & _ & P & _).
    subst run. rewrite E. cbn [snd].
    by rewrite sent_user_messages_prints.
Qed.

Lemma message_verbatim_with_thinking_tokens_witness :
  sent_user_messages
    (get_response http_world "You are a helpful assistant."
       "Keep <think>this</think>" "m" "http://127.0.0.1:1234" (py_float 7 10)
       1000 true true None true no_files).2
  = ["Keep <think>this</think>"].
Proof.
  apply (message_verbatim_with_thinking_tokens http_world).
  - reflexivity.
  - intros _ line. reflexivity.
Defined.

(** ** The HTTP path on bodies of another shape *)

Lemma getitem_str_raises v key e :
  getitem_str v key = Raise e ->
  is_ConnectionError e = false /\ is_Timeout e = false.
Proof.
  destruct v; simpl; try (by intros [= <-]).
  destruct (dict_lookup d key); [done|by intros [= <-]].
Qed.

Lemma getitem_0_raises v e :
  getitem_0 v = Raise e ->
  is_ConnectionError e = false /\ is_Timeout e = false.
Proof.
  destruct v as [| | | |s|l|d]; simpl; try (by intros [= <-]).
  - destruct s; [by intros [= <-]|done].
  - destruct l; [by intros [= <-]|done].
Qed.

Lemma completion_of_raises body e :
  completion_of body = Raise e ->
  is_ConnectionError e = false /\ is_Timeout e = false.
Proof.
  unfold completion_of.
  destruct (getitem_str body "choices") as [c1|e1] eqn:E1;
    [|intros [= <-]; by eapply getitem_str_raises].
  destruct (getitem_0 c1) as [c2|e2] eqn:E2;
    [|intros [= <-]; by eapply getitem_0_raises].
  destruct (getitem_str c2 "message") as [c3|e3] eqn:E3;
    [|intros [= <-]; by eapply getitem_str_raises].
  apply getitem_str_raises.
Qed.

Lemma api_run_decoded W sp um mi sa t th dbg st resp body :
  requests_post W (api_request sp um mi sa t) = Ok resp ->
  200 <= status_code resp < 300 ->
  json resp = Ok body ->
  forall e,
    completion_of body = Raise e ->
    _get_response_api W sp um mi sa t th dbg st =
    (Ok (PStr ("Error: " +:+ exn_str e), default_stats), st,
     [Call_requests_post (api_request sp um mi sa t)]).
Proof.
  intros Hp Hs Hj e He.
  destruct (completion_of_raises body e He) as [Hc Ht].
  rewrite (api_try_raises W sp um mi sa t th dbg st e st
             [Call_requests_post (api_request sp um mi sa t)]).
  - by rewrite Hc, Ht.
  - unfold _get_response_api_try. unfold_monad.
    rewrite Hp, (raise_for_status_2xx _ Hs), Hj. simpl.
    unfold completion_of in He.
    destruct (getitem_str body "choices") as [c1|e1]; simpl; [|congruence].
    destruct (getitem_0 c1) as [c2|e2]; simpl; [|congruence].
    destruct (getitem_str c2 "message") as [c3|e3]; simpl; [|congruence].
    by rewrite He.
Qed.

(** On a 2xx response whose body does not give
    [choices[0].message.content] (a missing key, an empty list or a value of
    another type at any of the three levels) the call returns ["Error: "]
    followed by the message of the failed lookup, with the default
    statistics; an empty [choices] list gives
    ["Error: list index out of range"]. *)
Theorem http_body_without_content :
  forall (W : World) (system_prompt user_message model_id server_address : string)
         (temperature : spec_float) (thinking_tokens debug : bool) (st : State)
         (resp : Response) (body : pyval),
    let req := api_request system_prompt user_message model_id server_address
                 temperature in
    let run := _get_response_api W system_prompt user_message model_id
                 server_address temperature thinking_tokens debug st in
    requests_post W req = Ok resp ->
    200 <= status_code resp < 300 ->
    json resp = Ok body ->
    (forall e,
        completion_of body = Raise e ->
        run = (Ok (PStr ("Error: " +:+ exn_str e), default_stats), st,
               [Call_requests_post req])) /\
    (forall d,
        body = PDict d -> dict_lookup d "choices" = Some (PList []) ->
        run = (Ok (PStr "Error: list index out of range", default_stats), st,
               [Call_requests_post req])) /\
    ((forall d, body <> PDict d) -> exists e, completion_of body = Raise e).
Proof.
  intros W sp um mi sa t th dbg st resp body req run Hp Hs Hj.
  split; [|split].
  - intros e He. by eapply api_run_decoded.
  - intros d -> Hc.
    apply (api_run_decoded W sp um mi sa t th dbg st resp (PDict d) Hp Hs Hj
             {| exn_cls := IndexError; exn_str := "list index out of range" |}).
    unfold completion_of. simpl. by rewrite Hc.
  - intros Hn. destruct body; try (by eexists); by destruct (Hn d).
Qed.

Lemma http_body_without_content_witness :
  _get_response_api
    (example_world false (Ok tt) (Ok tt)
       (Ok {| status_code := 200; reason := "OK"; response_url := "u";
              json := Ok (PDict [("choices", PList [])]) |}))
    "You are a helpful assistant." "Hello?" "m" "http://127.0.0.1:1234"
    (py_float 7 10) true false no_files =
  (Ok (PStr "Error: list index out of range", default_stats), no_files,
   [Call_requests_post
      (api_request "You are a helpful assistant." "Hello?" "m"
         "http://127.0.0.1:1234" (py_float 7 10))]).
Proof.
  destruct (http_body_without_content
              (example_world false (Ok tt) (Ok tt)
                 (Ok {| status_code := 200; reason := "OK";
                        response_url := "u";
                        json := Ok (PDict [("choices", PList [])]) |}))
              "You are a helpful assistant." "Hello?" "m"
              "http://127.0.0.1:1234" (py_float 7 10) true false no_files
              {| status_code := 200; reason := "OK"; response_url := "u";
                 json := Ok (PDict [("choices", PList [])]) |}
              (PDict [("choices", PList [])]))
    as (_ & H & _); [reflexivity|simpl; lia|reflexivity|].
  by apply (H [("choices", PList [])]).
Defined.

Lemma completion_of_Ok_steps body c :
  completion_of body = Ok c ->
  exists c1 c2 c3,
    getitem_str body "choices" = Ok c1 /\ getitem_0 c1 = Ok c2 /\
    getitem_str c2 "message" = Ok c3 /\ getitem_str c3 "content" = Ok c.
Proof.
  unfold completion_of.
  destruct (getitem_str body "choices") as [c1|e1] eqn:E1; [|done].
  destruct (getitem_0 c1) as [c2|e2] eqn:E2; [|done].
  destruct (getitem_str c2 "message") as [c3|e3] eqn:E3; [|done].
  intros H. by exists c1, c2, c3.
Qed.

(** What the [try] block of the HTTP path does once the content is read. *)
Lemma api_try_decoded W sp um mi sa t th st resp d c :
  requests_post W (api_request sp um mi sa t) = Ok resp ->
  200 <= status_code resp < 300 ->
  json resp = Ok (PDict d) ->
  completion_of (PDict d) = Ok c ->
  _get_response_api_try W sp um mi sa t th st =
  (((let! output :=
      if negb th then lift (clean_value c) else ret c in
    let! usage := lift (py_get (PDict d) "usage" (PDict [])) in
    let! stats' := lift (py_get (PDict d) "stats" (PDict [])) in
    let! tokens_per_sec :=
      lift (py_get stats' "tokens_per_second" (PFloat float_0)) in
    let! input_tokens := lift (py_get usage "prompt_tokens" (PInt 0)) in
    let! output_tokens := lift (py_get usage "completion_tokens" (PInt 0)) in
    let! stats_str :=
      lift (_format_stats W tokens_per_sec input_tokens output_tokens) in
    ret (output, stats_str)) st).1.1,
   st, [Call_requests_post (api_request sp um mi sa t)]).
Proof.
  intros Hp Hs Hj Hc.
  destruct (completion_of_Ok_steps _ _ Hc) as (c1 & c2 & c3 & H1 & H2 & H3 & H4).
  unfold _get_response_api_try. unfold_monad.
  rewrite Hp, (raise_for_status_2xx _ Hs), Hj. simpl.
  simpl in H1. rewrite H1. simpl. rewrite H2. simpl. rewrite H3. simpl. rewrite H4. simpl.
  repeat (case_step; simpl); reflexivity.
Qed.

(** When the content of the reply is not a string (JSON [null], a number,
    a list) and the body has no [usage] and no [stats], the call with
    [thinking_tokens = True] returns the value as it is, and the call with
    [thinking_tokens = False] returns the error text of [re.sub], both with
    the default statistics. *)
Theorem http_content_not_a_string :
  forall (W : World) (system_prompt user_message model_id server_address : string)
         (temperature : spec_float) (debug : bool) (st : State)
         (resp : Response) (d : list (string * pyval)) (c : pyval),
    let req := api_request system_prompt user_message model_id server_address
                 temperature in
    requests_post W req = Ok resp ->
    200 <= status_code resp < 300 ->
    json resp = Ok (PDict d) ->
    completion_of (PDict d) = Ok c ->
    (forall s, c <> PStr s) ->
    dict_lookup d "usage" = None -> dict_lookup d "stats" = None ->
    _get_response_api W system_prompt user_message model_id server_address
      temperature true debug st =
    (Ok (c, default_stats), st, [Call_requests_post req]) /\
    _get_response_api W system_prompt user_message model_id server_address
      temperature false debug st =
    (Ok (PStr ("Error: expected string or bytes-like object, got '"
               +:+ type_name c +:+ "'"), default_stats),
     st, [Call_requests_post req]).
Proof.
  intros W sp um mi sa t dbg st resp d c req Hp Hs Hj Hc Hn Hu Hst. split.
  - unfold _get_response_api. rewrite try_except_run.
    rewrite (api_try_decoded W sp um mi sa t true st resp d c Hp Hs Hj Hc).
    unfold_monad. simpl. rewrite Hu, Hst. reflexivity.
  - apply (api_try_raises W sp um mi sa t false dbg st
             {| exn_cls := TypeError;
                exn_str := "expected string or bytes-like object, got '"
                           +:+ type_name c +:+ "'" |}).
    rewrite (api_try_decoded W sp um mi sa t false st resp d c Hp Hs Hj Hc).
    unfold_monad. simpl.
    destruct c; try reflexivity. by destruct (Hn s).
Qed.

Lemma http_content_not_a_string_witness :
  _get_response_api
    (example_world false (Ok tt) (Ok tt)
       (Ok {| status_code := 200; reason := "OK"; response_url := "u";
              json := Ok (PDict [("choices",
                           PList [PDict [("message",
                                   PDict [("content", PNone)])]])]) |}))
    "You are a helpful assistant." "Hello?" "m" "http://127.0.0.1:1234"
    (py_float 7 10) true false no_files =
  (Ok (PNone, default_stats), no_files,
   [Call_requests_post
      (api_request "You are a helpful assistant." "Hello?" "m"
         "http://127.0.0.1:1234" (py_float 7 10))]).
Proof.
  apply (http_content_not_a_string
           (example_world false (Ok tt) (Ok tt)
              (Ok {| status_code := 200; reason := "OK"; response_url := "u";
                     json := Ok (PDict [("choices",
                                  PList [PDict [("message",
                                          PDict [("content", PNone)])]])]) |}))
           "You are a helpful assistant." "Hello?" "m"
           "http://127.0.0.1:1234" (py_float 7 10) false no_files
           {| status_code := 200; reason := "OK"; response_url := "u";
              json := Ok (PDict [("choices",
                           PList [PDict [("message",
                                   PDict [("content", PNone)])]])]) |}
           [("choices", PList [PDict [("message", PDict [("content", PNone)])]])]
           PNone);
    try reflexivity; done.
Defined.

(** A [usage] or [stats] field that is present but is not an object
    (JSON [null], for one) makes the call return the error text of the
    failed [.get], although the content was read: the default [{}] covers
    an absent field only. *)
Theorem http_usage_or_stats_not_an_object :
  forall (W : World) (system_prompt user_message model_id server_address : string)
         (temperature : spec_float) (thinking_tokens debug : bool) (st : State)
         (resp : Response) (d : list (string * pyval)) (c : string),
    let req := api_request system_prompt user_message model_id server_address
                 temperature in
    let run := _get_response_api W system_prompt user_message model_id
                 server_address temperature thinking_tokens debug st in
    requests_post W req = Ok resp ->
    200 <= status_code resp < 300 ->
    json resp = Ok (PDict d) ->
    completion_of (PDict d) = Ok (PStr c) ->
    (forall v,
        dict_lookup d "stats" = Some v -> (forall sd, v <> PDict sd) ->
        run = (Ok (PStr ("Error: '" +:+ type_name v
                         +:+ "' object has no attribute 'get'"),
                   default_stats), st, [Call_requests_post req])) /\
    (forall u,
        dict_lookup d "usage" = Some u -> (forall ud, u <> PDict ud) ->
        (dict_lookup d "stats" = None \/
         exists sd, dict_lookup d "stats" = Some (PDict sd)) ->
        run = (Ok (PStr ("Error: '" +:+ type_name u
                         +:+ "' object has no attribute 'get'"),
                   default_stats), st, [Call_requests_post req])).
Proof.
  intros W sp um mi sa t th dbg st resp d c req run Hp Hs Hj Hc. split.
  - intros v Hv Hn. subst run.
    apply (api_try_raises W sp um mi sa t th dbg st
             {| exn_cls := AttributeError;
                exn_str := "'" +:+ type_name v
                           +:+ "' object has no attribute 'get'" |}).
    rewrite (api_try_decoded W sp um mi sa t th st resp d _ Hp Hs Hj Hc).
    unfold_monad. simpl. rewrite Hv.
    destruct th; simpl; destruct (dict_lookup d "usage"); simpl;
      destruct v; try reflexivity; by destruct (Hn d0).
  - intros u Hu Hn Hst. subst run.
    apply (api_try_raises W sp um mi sa t th dbg st
             {| exn_cls := AttributeError;
                exn_str := "'" +:+ type_name u
                           +:+ "' object has no attribute 'get'" |}).
    rewrite (api_try_decoded W sp um mi sa t th st resp d _ Hp Hs Hj Hc).
    unfold_monad. simpl. rewrite Hu.
    destruct Hst as [->|[sd ->]]; destruct th; simpl;
      try destruct (dict_lookup sd "tokens_per_second"); simpl;
      destruct u; try reflexivity; by destruct (Hn d0).
Qed.

Lemma http_usage_or_stats_not_an_object_witness :
  _get_response_api
    (example_world false (Ok tt) (Ok tt)
       (Ok {| status_code := 200; reason := "OK"; response_url := "u";
              json := Ok (PDict [("choices",
                           PList [PDict [("message",
                                   PDict [("content", PStr "Hello")])]]);
                                 ("usage", PNone)]) |}))
    "You are a helpful assistant." "Hello?" "m" "http://127.0.0.1:1234"
    (py_float 7 10) true false no_files =
  (Ok (PStr "Error: 'NoneType' object has no attribute 'get'", default_stats),
   no_files,
   [Call_requests_post
      (api_request "You are a helpful assistant." "Hello?" "m"
         "http://127.0.0.1:1234" (py_float 7 10))]).
Proof.
  destruct (http_usage_or_stats_not_an_object
           (example_world false (Ok tt) (Ok tt)
              (Ok {| status_code := 200; reason := "OK"; response_url := "u";
                     json := Ok (PDict [("choices",
                                  PList [PDict [("message",
                                          PDict [("content", PStr "Hello")])]]);
                                        ("usage", PNone)]) |}))
           "You are a helpful assistant." "Hello?" "m"
           "http://127.0.0.1:1234" (py_float 7 10) true false no_files
           {| status_code := 200; reason := "OK"; response_url := "u";
              json := Ok (PDict [("choices",
                           PList [PDict [("message",
                                   PDict [("content", PStr "Hello")])]]);
                                 ("usage", PNone)]) |}
           [("choices", PList [PDict [("message", PDict [("content", PStr "Hello")])]]);
            ("usage", PNone)]
           "Hello") as [_ H];
    [reflexivity|simpl; lia|reflexivity|reflexivity|].
  apply (H PNone); [reflexivity|done|by left].
Defined.

(** ** The SDK path step by step *)

(** When [lms.llm] raises and the prints succeed, the call stops there:
    no chat is opened, no image is converted, no file is created, nothing
    is sent, and the error pair with the message of the exception is
    returned. *)
Theorem model_load_failure_stops_the_call :
  forall (W : World) (system_prompt user_message model_id server_address : string)
         (temperature : spec_float) (max_tokens : Z)
         (thinking_tokens use_sdk : bool) (image : option ndarray)
         (debug : bool) (st : State) (e : exn),
    prints_ok W ->
    HAS_SDK W && use_sdk = true ->
    lms_llm W model_id = Raise e ->
    let run := get_response W system_prompt user_message model_id
                 server_address temperature max_tokens thinking_tokens
                 use_sdk image debug st in
    run.1.1 = Ok (PStr ("Error processing with LM Studio SDK: " +:+ exn_str e),
                  default_stats) /\
    calls run.2 = [Call_lms_llm model_id] /\
    files run.1.2 = files st.
Proof.
  intros W sp um mi sa t mt th us im dbg st e Hp R He run.
  destruct (get_response_sdk_run W sp um mi sa t mt th us im dbg st
              (fun _ => Hp) R)
    as (prints & P & E). cbn zeta in E. subst run. rewrite E. cbn [fst snd].
  rewrite calls_prints by done. apply andb_prop in R as [R _].
  unfold prints_ok in Hp.
  unfold_sdk. rewrite R, He. unfold_monad. simpl. rewrite Hp. simpl.
  destruct dbg; done.
Qed.

Lemma model_load_failure_stops_the_call_witness :
  calls
    (get_response
       {| HAS_SDK := true; py_repr := fun _ => "0.7"; elapsed := float_0;
          lms_llm := fun _ =>
            Raise {| exn_cls := RuntimeError; exn_str := "model not found" |};
          lms_Chat := fun _ => Ok tt;
          lms_prepare_image := fun p => Ok p;
          add_user_message := fun _ _ _ => Ok tt;
          respond := fun _ _ _ _ => Ok example_result;
          Image_fromarray := fun _ => Ok tt;
          NamedTemporaryFile := Ok "/tmp/tmpk3x9.jpg";
          Image_save := fun _ _ => Ok tt;
          os_unlink := fun _ => Ok tt;
          requests_post := fun _ => Ok example_response;
          stdout_write := fun _ => Ok tt |}
       "You are a helpful assistant." "Hello?" "m" "http://127.0.0.1:1234"
       (py_float 7 10) 1000 true true (Some rgb_image) true no_files).2
  = [Call_lms_llm "m"].
Proof.
  eapply (model_load_failure_stops_the_call
            {| HAS_SDK := true; py_repr := fun _ => "0.7"; elapsed := float_0;
               lms_llm := fun _ =>
                 Raise {| exn_cls := RuntimeError;
                          exn_str := "model not found" |};
               lms_Chat := fun _ => Ok tt;
               lms_prepare_image := fun p => Ok p;
               add_user_message := fun _ _ _ => Ok tt;
               respond := fun _ _ _ _ => Ok example_result;
               Image_fromarray := fun _ => Ok tt;
               NamedTemporaryFile := Ok "/tmp/tmpk3x9.jpg";
               Image_save := fun _ _ => Ok tt;
               os_unlink := fun _ => Ok tt;
               requests_post := fun _ => Ok example_response;
               stdout_write := fun _ => Ok tt |}).
  - intros line. reflexivity.
  - reflexivity.
  - reflexivity.
Defined.






Lemma emits_bind_returns {A B} Q (P : A -> Prop) (c : M A) (k : A -> M B) :
  emits Q c -> returns P c -> (forall a, P a -> emits Q (k a)) ->
  emits Q (bind c k).
Proof.
  intros Hc Hr Hk st. rewrite bind_run. specialize (Hc st).
  specialize (Hr st).
  destruct (c st) as [[[a|e] st'] tr]; [|done]. simpl in *.
  apply Forall_app. split; [done|]. by apply Hk, Hr.
Qed.

Lemma returns_bind_returns {A B} (P' : A -> Prop) (P : B -> Prop)
    (c : M A) (k : A -> M B) :
  returns P' c -> (forall a, P' a -> returns P (k a)) -> returns P (bind c k).
Proof.
  intros Hc Hk st b. rewrite bind_run. specialize (Hc st).
  destruct (c st) as [[[a|e] st'] tr]; [|done]. simpl in *.
  by apply Hk, Hc.
Qed.

Lemma chat_add_returns W sp um images :
  returns (one_turn sp um)
    (chat_add W {| chat_system := sp; chat_turns := [] |} um images).
Proof.
  unfold chat_add. apply returns_bind. intros _. apply returns_ret.
  split; [done|]. by exists images.
Qed.

(** Every call of [model.respond] is made for the given model, with a chat
    that holds the system prompt and exactly one user turn with the message
    handed to the SDK path, and with the temperature and [max_tokens] of the
    call as generation configuration. *)
Lemma sdk_respond_as_given W sp um mi t mt th im dbg :
  emits (respond_as_given mi sp um t mt)
    (_get_response_sdk W sp um mi t mt th im dbg).
Proof.
  unfold _get_response_sdk.
  apply emits_bind; [intros ?; constructor|]. intros _.
  apply emits_finally; [|emits_go ltac:(exact I)].
  apply emits_try_except; [|intros ?; emits_go ltac:(exact I)].
  unfold _get_response_sdk_try.
  apply emits_bind; [emits_go ltac:(exact I)|]. intros _.
  apply emits_bind; [emits_go ltac:(exact I)|]. intros _.
  apply emits_bind; [emits_go ltac:(exact I)|]. intros _. cbv zeta.
  apply (emits_bind_returns _ (one_turn sp um)).
  - emits_go ltac:(exact I).
  - destruct im as [img|]; [|apply chat_add_returns].
    apply returns_bind. intros path. apply returns_bind. intros _.
    destruct path as [p|]; [|apply chat_add_returns].
    destruct (truthy (Some p)); [|apply chat_add_returns].
    apply returns_bind. intros h.
    apply (returns_bind_returns (one_turn sp um)); [apply chat_add_returns|].
    intros chat Hc. apply returns_bind. intros _. by apply returns_ret.
  - intros chat [Hs Ht].
    apply emits_bind; [emits_go ltac:(exact I)|]. intros _.
    apply emits_bind; [apply emits_call; by simpl|]. intros result.
    emits_go ltac:(exact I).
Qed.

(** ** Files *)

Lemma others_same_refl W st : others_same W st st.
Proof. by intros q _. Qed.

Lemma others_same_trans W st1 st2 st3 :
  others_same W st1 st2 -> others_same W st2 st3 -> others_same W st1 st3.
Proof. intros H1 H2 q Hq. by rewrite (H2 q Hq), (H1 q Hq). Qed.

Lemma frames_pure {A} W (c : M A) :
  (forall st, (c st).1.2 = st) -> frames W c.
Proof. intros H st Ht. rewrite H. split; [done|apply others_same_refl]. Qed.

Lemma frames_bind {A B} W (c : M A) (k : A -> M B) :
  frames W c -> (forall a, frames W (k a)) -> frames W (bind c k).
Proof.
  intros Hc Hk st Ht. rewrite bind_run. destruct (Hc st Ht) as [H1 H2].
  destruct (c st) as [[[a|e] st'] tr]; simpl in *; [|done].
  destruct (Hk a st' H1) as [H3 H4]. split; [done|].
  by eapply others_same_trans.
Qed.

Lemma frames_bind_returns {A B} W (P : A -> Prop) (c : M A) (k : A -> M B) :
  frames W c -> returns P c -> (forall a, P a -> frames W (k a)) ->
  frames W (bind c k).
Proof.
  intros Hc Hr Hk st Ht. rewrite bind_run. destruct (Hc st Ht) as [H1 H2].
  specialize (Hr st).
  destruct (c st) as [[[a|e] st'] tr]; simpl in *; [|done].
  destruct (Hk a (Hr a eq_refl) st' H1) as [H3 H4]. split; [done|].
  by eapply others_same_trans.
Qed.

Lemma frames_bind_call {A B} W ev (o : outcome A) (k : A -> M B) :
  (forall a, o = Ok a -> frames W (k a)) -> frames W (bind (call ev o) k).
Proof.
  intros Hk st Ht. rewrite bind_run, call_run.
  destruct o as [a|e]; simpl; [|split; [done|apply others_same_refl]].
  by apply Hk.
Qed.

Lemma frames_try_except {A} W (c : M A) (h : exn -> M A) :
  frames W c -> (forall e, frames W (h e)) -> frames W (try_except c h).
Proof.
  intros Hc Hh st Ht. rewrite try_except_run. destruct (Hc st Ht) as [H1 H2].
  destruct (c st) as [[[a|e] st'] tr]; simpl in *; [done|].
  destruct (Hh e st' H1) as [H3 H4]. split; [done|].
  by eapply others_same_trans.
Qed.

Lemma frames_finally {A} W (c : M A) (f : M unit) :
  frames W c -> frames W f -> frames W (finally c f).
Proof.
  intros Hc Hf st Ht. rewrite finally_run. simpl.
  destruct (Hc st Ht) as [H1 H2]. destruct (Hf _ H1) as [H3 H4].
  split; [done|]. by eapply others_same_trans.
Qed.

Lemma frames_when W b (c : M unit) : frames W c -> frames W (when b c).
Proof. intros H. destruct b; [done|by apply frames_pure]. Qed.

Lemma frames_create_file W p :
  NamedTemporaryFile W = Ok p -> frames W (create_file p).
Proof.
  intros Hp st Ht. split; [done|]. intros q Hq. simpl.
  assert (q <> p) by congruence. set_solver.
Qed.

Lemma frames_set_temp_path W path :
  (forall p, path = Some p -> NamedTemporaryFile W = Ok p) ->
  frames W (set_temp_path path).
Proof. intros Hp st Ht. split; [exact Hp|by intros q _]. Qed.

Lemma frames_sdk_finally W dbg : frames W (_get_response_sdk_finally W dbg).
Proof.
  intros st Ht. unfold _get_response_sdk_finally, unlink. unfold_monad.
  destruct (temp_path st) as [p|] eqn:Ep; [|split; [done|apply others_same_refl]].
  specialize (Ht p Ep).
  repeat (case_step; simpl);
    (split; [by intros p'; simpl; rewrite Ep; intros [= <-]|]);
    intros q Hq; simpl; try done;
    assert (q <> p) by congruence; set_solver.
Qed.

Ltac frames_go :=
  lazymatch goal with
  | |- frames _ (bind (call _ _) _) =>
      apply frames_bind_call; intros ? ?; frames_go
  | |- frames _ (bind _ _) =>
      apply frames_bind; [frames_go | intros ?; frames_go]
  | |- frames _ (ret _) => by apply frames_pure
  | |- frames _ (lift _) => by apply frames_pure
  | |- frames _ (call _ _) => by apply frames_pure
  | |- frames _ (print _ _) => by apply frames_pure
  | |- frames _ (emit _) => by apply frames_pure
  | |- frames _ (when _ _) => apply frames_when; frames_go
  | |- frames _ (try_except _ _) =>
      apply frames_try_except; [frames_go | intros ?; frames_go]
  | |- frames _ (finally _ _) =>
      apply frames_finally; [frames_go | frames_go]
  | |- frames _ (create_file _) => by apply frames_create_file
  | |- frames _ (set_temp_path _) =>
      apply frames_set_temp_path; first [done | by intros ? [= <-]; auto]
  | |- frames _ (if ?b then _ else _) => destruct b eqn:?; frames_go
  | |- frames _ (match ?x with Some _ => _ | None => _ end) =>
      destruct x eqn:?; frames_go
  | |- frames _ (chat_add _ _ _ _) => unfold chat_add; frames_go
  | |- frames _ (_get_response_sdk_finally _ _) => apply frames_sdk_finally
  | |- _ => idtac
  end.

Lemma frames_prepare_image W img dbg : frames W (_prepare_image W img dbg).
Proof. unfold _prepare_image. frames_go. Qed.

Lemma prepare_image_returns_temp_name W img dbg :
  returns (fun path => forall p, path = Some p -> NamedTemporaryFile W = Ok p)
    (_prepare_image W img dbg).
Proof.
  unfold _prepare_image. apply returns_try_except.
  - apply returns_bind. intros _. apply returns_bind_call. intros path Hp.
    apply returns_bind. intros _. apply returns_bind. intros _.
    apply returns_bind. intros _. apply returns_ret. by intros p [= <-].
  - intros e. apply returns_bind. intros _. by apply returns_ret.
Qed.

Lemma frames_sdk_try W sp um mi t mt th im dbg :
  frames W (_get_response_sdk_try W sp um mi t mt th im dbg).
Proof.
  unfold _get_response_sdk_try. cbv zeta.
  apply frames_bind; [frames_go|]. intros _.
  apply frames_bind; [frames_go|]. intros _.
  apply frames_bind; [frames_go|]. intros _.
  apply frames_bind; [|intros chat; frames_go].
  destruct im as [img|]; [|frames_go].
  eapply frames_bind_returns;
    [apply frames_prepare_image|apply prepare_image_returns_temp_name|].
  intros path Hpath. apply frames_bind; [by apply frames_set_temp_path|].
  intros _. frames_go.
Qed.

(** [get_response] touches no file but the one that [NamedTemporaryFile]
    names: every other file is on disk after the call exactly when it was
    before, on both paths and on every exit. *)
Lemma get_response_others_same W sp um mi sa t mt th us im dbg st :
  others_same W st (get_response W sp um mi sa t mt th us im dbg st).1.2.
Proof.
  unfold get_response. cbv zeta. rewrite bind_run.
  pose proof (debug_header_state W mi us im dbg st) as Hs.
  destruct (debug_header W mi us im dbg st) as [[[[]|e] st'] tr];
    cbn [fst snd] in Hs; subst st'; cbn [fst snd];
    [|apply others_same_refl].
  destruct (HAS_SDK W && us) eqn:R.
  - unfold _get_response_sdk. rewrite bind_run.
    change (set_temp_path None st)
      with (Ok tt, {| files := files st; temp_path := None |}, @nil event).
    cbn [fst snd app].
    set (st0 := {| files := files st; temp_path := None |}).
    assert (Ht : temp_path_ok W st0) by (by intros p).
    assert (Hf : frames W
              (finally
                 (try_except
                    (_get_response_sdk_try W sp
                       (if negb th then _clean_thinking_tokens um else um)
                       mi t mt th im dbg)
                    (fun e =>
                       print W ("Error processing with LM Studio SDK: "
                                +:+ exn_str e) >>
                       ret (PStr ("Error processing with LM Studio SDK: "
                                  +:+ exn_str e), default_stats)))
                 (_get_response_sdk_finally W dbg))).
    { apply frames_finally; [|apply frames_sdk_finally].
      apply frames_try_except; [apply frames_sdk_try|intros e; frames_go]. }
    destruct (Hf st0 Ht) as [_ Ho]. exact Ho.
  - rewrite bind_run.
    destruct (get_response_api_run W sp
                (if negb th then _clean_thinking_tokens um else um)
                mi sa t th dbg st) as [v Hv].
    destruct (bool_decide (is_Some im) && dbg); unfold when.
    + rewrite print_run. destruct (stdout_write W _); cbn [fst snd];
        [rewrite Hv|]; apply others_same_refl.
    + cbn [ret fst snd]. rewrite Hv. apply others_same_refl.
Qed.

(** [get_response] touches no file but the one that [NamedTemporaryFile]
    names: any other file is on disk after the call exactly when it was
    before, on both paths, whatever fails and however the call ends. *)
Theorem only_the_temporary_file_is_touched :
  forall (W : World) (system_prompt user_message model_id server_address : string)
         (temperature : spec_float) (max_tokens : Z)
         (thinking_tokens use_sdk : bool) (image : option ndarray)
         (debug : bool) (st : State) (q : string),
    NamedTemporaryFile W <> Ok q ->
    let run := get_response W system_prompt user_message model_id
                 server_address temperature max_tokens thinking_tokens
                 use_sdk image debug st in
    q ∈ files run.1.2 <-> q ∈ files st.
Proof.
  intros W sp um mi sa t mt th us im dbg st q Hq run. subst run.
  by apply get_response_others_same.
Qed.

Lemma only_the_temporary_file_is_touched_witness :
  let st := {| files := {["/home/user/notes.txt"]}; temp_path := None |} in
  NamedTemporaryFile sdk_world <> Ok "/home/user/notes.txt" /\
  ("/home/user/notes.txt" ∈
     files (get_response sdk_world "You are a helpful assistant."
              "Describe the image" "m" "http://127.0.0.1:1234"
              (py_float 7 10) 1000 true true (Some rgb_image) false st).1.2 <->
   "/home/user/notes.txt" ∈ files st).
Proof.
  intros st.
  assert (H : NamedTemporaryFile sdk_world <> Ok "/home/user/notes.txt")
    by (simpl; discriminate).
  split; [exact H|].
  exact (only_the_temporary_file_is_touched sdk_world
           "You are a helpful assistant." "Describe the image" "m"
           "http://127.0.0.1:1234" (py_float 7 10) 1000 true true
           (Some rgb_image) false st "/home/user/notes.txt" H).
Defined.


(** ** The arguments of [model.respond] *)

Lemma calls_respond_false tr :
  Forall (fun ev => match ev with Call_respond _ _ _ _ => False | _ => True end)
    tr ->
  calls_respond tr = false.
Proof.
  unfold calls_respond. induction 1 as [|ev tr H _ IH]; [done|].
  simpl. rewrite IH. by destruct ev.
Qed.

Lemma get_response_respond_as_given W sp um mi sa t mt th us im dbg :
  emits (respond_as_given mi sp
           (if negb th then _clean_thinking_tokens um else um) t mt)
    (get_response W sp um mi sa t mt th us im dbg).
Proof.
  unfold get_response. cbv zeta.
  apply emits_bind; [emits_go ltac:(exact I)|]. intros _.
  destruct (HAS_SDK W && us); [apply sdk_respond_as_given|].
  emits_go ltac:(exact I).
Qed.

Lemma http_emits_no_respond W sp um mi sa t mt th us im dbg :
  HAS_SDK W && us = false ->
  emits (fun ev => match ev with Call_respond _ _ _ _ => False | _ => True end)
    (get_response W sp um mi sa t mt th us im dbg).
Proof.
  intros R. unfold get_response. cbv zeta. rewrite R.
  emits_go ltac:(exact I).
Qed.

(** Every call of [model.respond] is made for the model of the call, with
    a chat that holds the system prompt and exactly one user turn, the
    message as it is sent, and with the temperature and [max_tokens] of the
    call.  The HTTP path never calls it. *)
Theorem respond_gets_the_arguments :
  forall (W : World) (system_prompt user_message model_id server_address : string)
         (temperature : spec_float) (max_tokens : Z)
         (thinking_tokens use_sdk : bool) (image : option ndarray)
         (debug : bool) (st : State),
    let message := if negb thinking_tokens
                   then _clean_thinking_tokens user_message
                   else user_message in
    let run := get_response W system_prompt user_message model_id
                 server_address temperature max_tokens thinking_tokens
                 use_sdk image debug st in
    Forall (respond_as_given model_id system_prompt message temperature
              max_tokens) run.2 /\
    (HAS_SDK W && use_sdk = false -> calls_respond run.2 = false).
Proof.
  intros W sp um mi sa t mt th us im dbg st message run. subst run. split.
  - apply get_response_respond_as_given.
  - intros R. apply calls_respond_false. by apply http_emits_no_respond.
Qed.

(** ** The filter only deletes *)

Lemma sub_from_sublist skip s : sublist (sub_from skip s) s.
Proof.
  revert skip. induction s as [|c s IH]; intros skip; [done|]. simpl.
  destruct skip as [|k]; [|by apply sublist_cons].
  destruct (match_at (c :: s)) as [[|k]|].
  - by apply sublist_skip.
  - by apply sublist_cons.
  - by apply sublist_skip.
Qed.

Lemma strip_sublist s : sublist (strip s) s.
Proof.
  destruct (strip_Trimmed s) as (u & v & E & _). rewrite E at 2.
  apply sublist_inserts_l, sublist_inserts_r. done.
Qed.

Lemma length_chars s : length (chars s) = String.length s.
Proof. induction s as [|c s IH]; [done|]. simpl. by rewrite IH. Qed.

(** The filter only deletes characters: its output is the input with some
    characters left out, in the same order, so it is never longer than the
    input and holds no character that the input does not hold. *)
Theorem clean_thinking_tokens_only_deletes :
  forall text : string,
    sublist (chars (_clean_thinking_tokens text)) (chars text) /\
    (String.length (_clean_thinking_tokens text) <= String.length text)%nat.
Proof.
  intros text.
  assert (H : sublist (chars (_clean_thinking_tokens text)) (chars text)).
  { unfold _clean_thinking_tokens, chars at 1, str_of.
    rewrite list_ascii_of_string_of_list_ascii.
    etrans; [apply strip_sublist|]. apply sub_from_sublist. }
  split; [exact H|]. rewrite <- !length_chars. by apply sublist_length.
Qed.

(** ** The SDK path without an image *)

(** With [debug] off, when the model, the chat, the user turn and the
    completion all succeed on a call without an image, the SDK path makes
    these four calls and no other, leaves the files alone and returns the
    completion (filtered when [thinking_tokens] is off) with the
    statistics; a statistic the stats object does not have counts as zero.
    When formatting the statistics fails, as it does for a rate that is
    [None], the handler prints the SDK error text: the call returns that
    text with the default statistics when the print succeeds, and raises
    what the print raises when it fails. *)
Theorem sdk_text_only_success :
  forall (W : World) (system_prompt user_message model_id : string)
         (temperature : spec_float) (max_tokens : Z)
         (thinking_tokens : bool) (st : State) (result : PredictionResult),
    HAS_SDK W = true ->
    lms_llm W model_id = Ok tt ->
    lms_Chat W system_prompt = Ok tt ->
    add_user_message W {| chat_system := system_prompt; chat_turns := [] |}
      user_message [] = Ok tt ->
    respond W model_id
      {| chat_system := system_prompt; chat_turns := [(user_message, [])] |}
      temperature max_tokens = Ok result ->
    let run := _get_response_sdk W system_prompt user_message model_id
                 temperature max_tokens thinking_tokens None false st in
    let output := if thinking_tokens then content result
                  else _clean_thinking_tokens (content result) in
    let rate := default (PFloat float_0) (tokens_per_second (stats result)) in
    let input := default (PInt 0) (prompt_tokens_count (stats result)) in
    let predicted :=
      default (PInt 0) (predicted_tokens_count (stats result)) in
    calls run.2 =
      [Call_lms_llm model_id; Call_lms_Chat system_prompt;
       Call_add_user_message user_message [];
       Call_respond model_id
         {| chat_system := system_prompt;
            chat_turns := [(user_message, [])] |}
         temperature max_tokens] /\
    files run.1.2 = files st /\
    (forall text, _format_stats W rate input predicted = Ok text ->
                  run.1.1 = Ok (PStr output, text)) /\
    (forall e, _format_stats W rate input predicted = Raise e ->
               match stdout_write W ("Error processing with LM Studio SDK: "
                                     +:+ exn_str e) with
               | Ok _ =>
                   run.1.1 =
                   Ok (PStr ("Error processing with LM Studio SDK: "
                             +:+ exn_str e), default_stats)
               | Raise e' => run.1.1 = Raise e'
               end) /\
    (tokens_per_second (stats result) = None ->
     prompt_tokens_count (stats result) = None ->
     predicted_tokens_count (stats result) = None ->
     run.1.1 = Ok (PStr output, default_stats)) /\
    (tokens_per_second (stats result) = Some PNone ->
     stdout_write W "Error processing with LM Studio SDK: unsupported format string passed to NoneType.__format__"
       = Ok tt ->
     run.1.1 =
     Ok (PStr "Error processing with LM Studio SDK: unsupported format string passed to NoneType.__format__",
         default_stats)).
Proof.
  intros W sp um mi t mt th st result H0 H1 H2 H3 H4 run output rate
    input predicted.
  subst run output rate input predicted.
  unfold_sdk. unfold_monad. rewrite H0, H1. simpl. rewrite H2. simpl.
  rewrite H3. simpl. rewrite H4. simpl.
  destruct (_format_stats W _ _ _) as [text|e] eqn:F; simpl.
  - repeat split; try done.
    + intros text' [= <-]. by destruct th.
    + intros E1 E2 E3. rewrite E1, E2, E3 in F. simpl in F.
      injection F as <-. by destruct th.
    + intros E1. rewrite E1 in F. by simpl in F.
  - destruct (stdout_write W ("Error processing with LM Studio SDK: "
                              +:+ exn_str e)) as [[]|e'] eqn:Ew; simpl.
    + repeat split; try done.
      * intros e0 [= <-]. by rewrite Ew.
      * intros E1 E2 E3. rewrite E1, E2, E3 in F. by simpl in F.
      * intros E1. rewrite E1 in F. simpl in F. by injection F as <-.
    + repeat split; try done.
      * intros e0 [= <-]. by rewrite Ew.
      * intros E1 E2 E3. rewrite E1, E2, E3 in F. by simpl in F.
      * intros E1 Hw. rewrite E1 in F. simpl in F. injection F as <-.
        change (stdout_write W "Error processing with LM Studio SDK: unsupported format string passed to NoneType.__format__"
                = Raise e') in Ew.
        congruence.
Qed.

Lemma sdk_text_only_success_witness :
  (_get_response_sdk sdk_world "You are a helpful assistant." "Hello?" "m"
     (py_float 7 10) 1000 true None false no_files).1.1 =
  Ok (PStr "Hi",
      "Tokens per Second: 12.35" +:+ nl +:+ "Input Tokens: 10" +:+ nl
      +:+ "Output Tokens: 20").
Proof.
  pose proof (sdk_text_only_success sdk_world "You are a helpful assistant."
                "Hello?" "m" (py_float 7 10) 1000 true no_files
                example_result eq_refl eq_refl eq_refl eq_refl eq_refl)
    as H.
  cbv zeta in H. destruct H as (_ & _ & H & _).
  apply H. vm_compute. reflexivity.
Defined.

(** ** The debug flag on the HTTP path *)

(** On the HTTP path, when the debug prints succeed, the debug flag
    changes what is printed and nothing else: the two calls return the same
    result, leave the same files and make the same call to the outside,
    the post of the request. *)
Theorem debug_only_changes_what_is_printed :
  forall (W : World) (system_prompt user_message model_id server_address : string)
         (temperature : spec_float) (max_tokens : Z)
         (thinking_tokens use_sdk : bool) (image : option ndarray)
         (st : State),
    HAS_SDK W && use_sdk = false ->
    prints_ok W ->
    let run debug :=
      get_response W system_prompt user_message model_id server_address
        temperature max_tokens thinking_tokens use_sdk image debug st in
    (run true).1 = (run false).1 /\
    calls (run true).2 = calls (run false).2 /\
    calls (run false).2 =
      [Call_requests_post
         (api_request system_prompt
            (if negb thinking_tokens then _clean_thinking_tokens user_message
             else user_message)
            model_id server_address temperature)].
Proof.
  intros W sp um mi sa t mt th us im st R G run. subst run.
  pose proof (debug_unused_on_http_path W sp um mi sa t mt th us im st G R)
    as H1.
  destruct (get_response_http_run W sp um mi sa t mt th us im true st
              (fun _ => G) R)
    as (v & prints & E & _ & P & _).
  destruct (get_response_http_run W sp um mi sa t mt th us im false st
              (fun _ => G) R)
    as (v' & prints' & E' & _ & P' & _).
  split; [exact H1|]. rewrite E, E'. cbn [snd].
  by rewrite !calls_prints.
Qed.

Lemma debug_only_changes_what_is_printed_witness :
  let run debug :=
    get_response http_world "You are a helpful assistant."
      "Describe the image" "m" "http://127.0.0.1:1234" (py_float 7 10) 1000
      true true (Some rgb_image) debug no_files in
  (run true).1 = (run false).1 /\ calls (run true).2 = calls (run false).2.
Proof.
  destruct (debug_only_changes_what_is_printed http_world
              "You are a helpful assistant." "Describe the image" "m"
              "http://127.0.0.1:1234" (py_float 7 10) 1000 true true
              (Some rgb_image) no_files eq_refl (fun line => eq_refl))
    as (H1 & H2 & _).
  by split.
Defined.
